(** * The sign-in callback route of next-auth (src/server/routes/callback.js)

    A shallow embedding of the callback handler as a program in a small
    monad that threads the state of the outside world, records every call
    the handler makes to a collaborator, and distinguishes the three ways
    a JavaScript block can complete: normally, by [throw], or by [return]. *)

From Stdlib Require Import String Ascii List ZArith Bool Lia.
Import ListNotations.
Open Scope string_scope.

(** ** JavaScript values *)

#[warnings="-register-all"]
Inductive JsVal : Type :=
| JUndefined
| JNull
| JBool (b : bool)
| JNum (z : Z)
| JStr (s : string)
| JObj (fields : list (string * JsVal)).

(** What a [throw] carries: an instance of [Error] (with its [name] and
    [message]) or any other value. *)
Inductive Thrown : Type :=
| ThrownError (name message : string)
| ThrownValue (v : JsVal).

(** The result of awaiting a collaborator. *)
Inductive Res (A : Type) : Type :=
| Ok (a : A)
| Err (e : Thrown).
Arguments Ok {A} a.
Arguments Err {A} e.

Definition res_void {A : Type} (r : Res A) : Res unit :=
  match r with Ok _ => Ok tt | Err e => Err e end.

(** Property lookup on an object literal, [obj[key]]. *)
Fixpoint assoc {A : Type} (key : string) (l : list (string * A)) : option A :=
  match l with
  | [] => None
  | (k, v) :: rest => if String.eqb k key then Some v else assoc key rest
  end.

(** Truthiness of a value that is a string, [null] or [undefined]. *)
Definition truthy (o : option string) : bool :=
  match o with
  | Some s => negb (String.eqb s "")
  | None => false
  end.

(** [a || b] where [a] is a string or absent and [b] is a string. *)
Definition or_else (a : option string) (b : string) : string :=
  match a with
  | Some s => if String.eqb s "" then b else s
  | None => b
  end.

(** A string-or-absent value passed on as a JavaScript value. *)
Definition js_of_option (o : option string) : JsVal :=
  match o with Some s => JStr s | None => JUndefined end.

(** Truthiness of a JavaScript value. *)
Definition js_truthy (v : JsVal) : bool :=
  match v with
  | JUndefined | JNull => false
  | JBool b => b
  | JNum z => negb (Z.eqb z 0)
  | JStr s => negb (String.eqb s "")
  | JObj _ => true
  end.

(** Truthiness of a value that was thrown or handed over as an error: an
    Error object is truthy. *)
Definition thrown_truthy (e : Thrown) : bool :=
  match e with
  | ThrownError _ _ => true
  | ThrownValue v => js_truthy v
  end.

(** [signInCallbackResponse === false] *)
Definition is_false (v : JsVal) : bool :=
  match v with JBool false => true | _ => false end.

(** [v === lit] for a string literal. *)
Definition strict_eq_str (v : JsVal) (lit : string) : bool :=
  match v with JStr s => String.eqb s lit | _ => false end.

Definition type_error (what : string) : Thrown :=
  ThrownError "TypeError" ("Cannot read properties of " ++ what).

(** [error.name] in a catch clause: an Error has its name, [null] and
    [undefined] have no properties at all (a TypeError is thrown), an
    object literal is looked up, any other primitive yields [undefined]. *)
Definition error_name (e : Thrown) : Res JsVal :=
  match e with
  | ThrownError n _ => Ok (JStr n)
  | ThrownValue JUndefined => Err (type_error "undefined (reading 'name')")
  | ThrownValue JNull => Err (type_error "null (reading 'name')")
  | ThrownValue (JObj fields) =>
      Ok (match assoc "name" fields with Some v => v | None => JUndefined end)
  | ThrownValue _ => Ok JUndefined
  end.

(** The names every plain object inherits from [Object.prototype]. *)
Definition object_prototype_names : list string :=
  ["constructor"; "__proto__"; "hasOwnProperty"; "isPrototypeOf";
   "propertyIsEnumerable"; "toLocaleString"; "toString"; "valueOf";
   "__defineGetter__"; "__defineSetter__"; "__lookupGetter__";
   "__lookupSetter__"].

(** [Error.prototype.toString]: what [String(error)] and therefore
    [encodeURIComponent(error)] see of an Error. *)
Definition error_toString (name message : string) : string :=
  if String.eqb name "" then message
  else if String.eqb message "" then name
  else name ++ ": " ++ message.

(** ** [encodeURIComponent]

    A string is kept as the bytes of its UTF-8 encoding.  A JavaScript
    string may hold a surrogate that is not part of a pair; its bytes
    ([ED A0..BF 80..BF]) are not well-formed UTF-8.  On such a string the
    builtin throws a URIError; on a well-formed string every byte outside
    the unreserved set [A-Z a-z 0-9 - _ . ! ~ * ' ( )] becomes [%XX]. *)

Definition unreserved (c : ascii) : bool :=
  let n := nat_of_ascii c in
  (((65 <=? n) && (n <=? 90)) || ((97 <=? n) && (n <=? 122))
   || ((48 <=? n) && (n <=? 57)))%nat
  || existsb (Ascii.eqb c) (list_ascii_of_string "-_.!~*'()").

Definition hex_digit (n : nat) : ascii :=
  nth n (list_ascii_of_string "0123456789ABCDEF") "0"%char.

Definition percent_encode (c : ascii) : string :=
  let n := nat_of_ascii c in
  String "%" (String (hex_digit (n / 16)) (String (hex_digit (n mod 16)) "")).

(** The escaped form of a string, byte by byte. *)
Fixpoint percent_escape (s : string) : string :=
  match s with
  | EmptyString => ""
  | String c rest =>
      (if unreserved c then String c "" else percent_encode c)
        ++ percent_escape rest
  end.

(** The byte [c] lies in [lo..hi]. *)
Definition byte_in (lo hi : nat) (c : ascii) : bool :=
  ((lo <=? nat_of_ascii c) && (nat_of_ascii c <=? hi))%nat.

(** Well-formed UTF-8 (Unicode, table 3-7): no truncated or overlong
    sequence, no code point past U+10FFFF and no surrogate. *)
Fixpoint well_formed_utf8 (s : string) : bool :=
  match s with
  | EmptyString => true
  | String c1 rest1 =>
      if byte_in 0 127 c1 then well_formed_utf8 rest1
      else
        match rest1 with
        | EmptyString => false
        | String c2 rest2 =>
            if byte_in 194 223 c1 then
              byte_in 128 191 c2 && well_formed_utf8 rest2
            else
              match rest2 with
              | EmptyString => false
              | String c3 rest3 =>
                  if byte_in 224 239 c1 then
                    (if byte_in 224 224 c1 then byte_in 160 191 c2
                     else if byte_in 237 237 c1 then byte_in 128 159 c2
                     else byte_in 128 191 c2)
                    && byte_in 128 191 c3 && well_formed_utf8 rest3
                  else
                    match rest3 with
                    | EmptyString => false
                    | String c4 rest4 =>
                        byte_in 240 244 c1
                        && (if byte_in 240 240 c1 then byte_in 144 191 c2
                            else if byte_in 244 244 c1 then byte_in 128 143 c2
                            else byte_in 128 191 c2)
                        && byte_in 128 191 c3 && byte_in 128 191 c4
                        && well_formed_utf8 rest4
                    end
              end
        end
  end.

(** The URIError the builtin throws (with the message Node gives it). *)
Definition uri_error : Thrown := ThrownError "URIError" "URI malformed".

Definition encodeURIComponent (s : string) : Res string :=
  if well_formed_utf8 s then Ok (percent_escape s) else Err uri_error.

(** A surrogate without its pair, U+D800, as a string of its own. *)
Definition lone_surrogate : string :=
  String (ascii_of_nat 237)
    (String (ascii_of_nat 160) (String (ascii_of_nat 128) "")).

(** The value of a hexadecimal digit, and the byte two digits stand for. *)
Definition hex_value (c : ascii) : nat :=
  let n := nat_of_ascii c in
  if (n <=? 57)%nat then n - 48 else n - 55.

Definition unhex (h l : ascii) : ascii :=
  ascii_of_nat (16 * hex_value h + hex_value l).

(** Reading escapes back: what an escaped string stands for. *)
Fixpoint percent_decode (s : string) : option string :=
  match s with
  | EmptyString => Some ""
  | String c rest =>
      if Ascii.eqb c "%" then
        match rest with
        | String h (String l rest') =>
            match percent_decode rest' with
            | Some t => Some (String (unhex h l) t)
            | None => None
            end
        | _ => None
        end
      else
        match percent_decode rest with
        | Some t => Some (String c t)
        | None => None
        end
  end.

(** A character that the builtin may produce: an unreserved one or the
    percent sign of an escape. *)
Definition uri_safe (c : ascii) : bool := unreserved c || Ascii.eqb c "%".

(** ** Data model *)

Definition RawData : Type := list (string * string).

(** A user record or a provider profile: the handler reads only these. *)
Record User : Type := mkUser {
  user_id : option string;
  user_name : option string;
  user_email : option string;
  user_image : option string
}.

Record Account : Type := mkAccount {
  account_provider : option string;
  account_id : option string;
  account_type : string;
  account_providerAccountId : option string
}.

Record Session : Type := mkSession {
  session_sessionToken : string;
  session_expires : option string
}.

Record VerificationRequest : Type := mkVerificationRequest {
  vr_identifier : string;
  vr_token : string;
  vr_expires : Z
}.

(** The claim set handed to [callbacks.jwt] and to [jwt.encode]. *)
Record JwtPayload : Type := mkJwtPayload {
  jwt_name : option string;
  jwt_email : option string;
  jwt_picture : option string;
  jwt_custom : RawData
}.

(** The provider-specific third argument of [callbacks.signIn] and fourth
    argument of [callbacks.jwt]. *)
Inductive Payload : Type :=
| PayloadOAuthProfile (raw : RawData)
| PayloadEmail (email : option string)
| PayloadCredentials (credentials : RawData)
| PayloadUser (u : User).

(** The message of the [signIn] event; the credentials flow sends no
    [isNewUser] field. *)
Record EventMessage : Type := mkEventMessage {
  msg_user : User;
  msg_account : Account;
  msg_isNewUser : option bool
}.

(** What [callbackHandler] resolves to. *)
Record Materialized : Type := mkMaterialized {
  m_user : User;
  m_session : option Session;
  m_isNewUser : bool
}.

(** What the OAuth exchange hands to its continuation. *)
Record OAuthResponse : Type := mkOAuthResponse {
  oa_error : option Thrown;
  oa_profile : option User;
  oa_account : Account;
  oa_OAuthProfile : RawData
}.

(** [if (error)] on what the exchange handed over: [undefined], [null],
    [false], [0] and the empty string do not count as an error. *)
Definition error_reported (resp : OAuthResponse) : bool :=
  match oa_error resp with
  | Some e => thrown_truthy e
  | None => false
  end.

Record Request : Type := mkRequest {
  req_method : string;
  req_cookies : option (list (string * string));
  req_query : list (string * string);
  req_body : RawData
}.

(** The [expires] attribute of the cookie: an instant computed from the
    clock (milliseconds), the value stored with the session record, or
    the value the deployment configured. *)
Inductive CookieExpires : Type :=
| ExpiresAt (ms : Z)
| ExpiresStored (e : option string)
| ExpiresConfigured (v : JsVal).

(** The options object handed to [cookie.set]: its [expires], and the
    attributes configured as [cookies.sessionToken.options]. *)
Record CookieOptions : Type := mkCookieOptions {
  cookie_expires : CookieExpires;
  cookie_attributes : list (string * JsVal)
}.

(** [{ expires: computed, ...configured }]: the spread comes last, so a
    configured [expires] replaces the computed one. *)
Definition spread_options (computed : CookieExpires)
    (configured : list (string * JsVal)) : CookieOptions :=
  {| cookie_expires :=
       match assoc "expires" configured with
       | Some v => ExpiresConfigured v
       | None => computed
       end;
     cookie_attributes := configured |}.

(** [date.toISOString()] for a time value in milliseconds: a RangeError
    past the range of Date, 100,000,000 days either side of the epoch. *)
Definition toISOString (ms : Z) : Res Z :=
  if (Z.abs ms <=? 8640000000000000)%Z then Ok ms
  else Err (ThrownError "RangeError" "Invalid time value").

(** The terminal action of one invocation. *)
Inductive Outcome : Type :=
| Redirect (target : JsVal)
| Rejected (status : Z) (body : string)
| Unhandled (e : Thrown)
| NoResponse.

(** One entry per call the handler makes, with what the call resolved to. *)
Inductive Event : Type :=
| EvLoggerError (code : string)
| EvLoggerDebug (code : string)
| EvOAuthCallback (r : Res OAuthResponse)
| EvGetAdapter (r : Res unit)
| EvGetUserByProviderAccountId (provider id : option string)
    (r : Res (option User))
| EvGetVerificationRequest (email token : option string)
    (r : Res (option VerificationRequest))
| EvDeleteVerificationRequest (email token : option string) (r : Res unit)
| EvGetUserByEmail (email : option string) (r : Res (option User))
| EvAuthorize (credentials : RawData) (r : Res (option User))
| EvSignIn (u : User) (a : Account) (p : Payload) (r : Res JsVal)
| EvCallbackHandler (sessionToken : option string) (profile : User)
    (a : Account) (r : Res Materialized)
| EvJwt (defaults : JwtPayload) (u : User) (a : Account) (p : Payload)
    (isNewUser : bool) (r : Res JwtPayload)
| EvJwtEncode (token : JwtPayload) (r : Res string)
| EvDateNow (ms : Z)
| EvCookieSet (name value : string) (options : CookieOptions) (r : Res unit)
| EvSignInEvent (message : EventMessage) (r : Res unit).

Definition Trace : Type := list Event.

(** ** The handler, over an arbitrary world state [W] *)

Section Handler.

Variable W : Type.

(** An awaited call: it may change the world and resolves or rejects. *)
Definition Effect (A : Type) : Type := W -> Res A * W.

Record Provider : Type := mkProvider {
  provider_id : string;
  provider_type : string;
  provider_authorize : option (RawData -> Effect (option User))
}.

(** The operations [adapter.getAdapter(options)] resolves to. *)
Record AdapterOps : Type := mkAdapterOps {
  getUserByProviderAccountId :
    option string -> option string -> Effect (option User);
  getVerificationRequest :
    option string -> option string -> string -> Provider ->
    Effect (option VerificationRequest);
  deleteVerificationRequest :
    option string -> option string -> string -> Provider -> Effect unit;
  getUserByEmail : option string -> Effect (option User)
}.

Record Adapter : Type := mkAdapter {
  getAdapter : Effect AdapterOps
}.

Record Callbacks : Type := mkCallbacks {
  callbacks_signIn : User -> Account -> Payload -> Effect JsVal;
  callbacks_jwt :
    JwtPayload -> User -> Account -> Payload -> bool -> Effect JwtPayload
}.

Record Events : Type := mkEvents {
  events_signIn : EventMessage -> Effect unit
}.

Record Options : Type := mkOptions {
  opt_provider : string;
  opt_providers : list (string * Provider);
  opt_adapter : option Adapter;
  opt_baseUrl : string;
  opt_basePath : string;
  opt_secret : string;
  opt_cookies_sessionToken_name : string;
  opt_cookies_sessionToken_options : list (string * JsVal);
  opt_callbackUrl : option string;
  opt_pages_newUser : option string;
  opt_jwt_encode : JwtPayload -> Effect string;
  opt_events : Events;
  opt_callbacks : Callbacks;
  opt_csrfToken : string;
  opt_session_jwt : bool;
  opt_session_maxAge : Z
}.

(** The modules the route imports, and the clock behind [new Date()]. *)
Record Imports : Type := mkImports {
  oAuthCallback : Request -> Provider -> string -> Effect OAuthResponse;
  callbackHandler :
    option string -> User -> Account -> Effect Materialized;
  cookie_set : string -> string -> CookieOptions -> Effect unit;
  date_now : W -> Z
}.

(** *** The monad *)

Inductive Completion (A : Type) : Type :=
| Normal (a : A)
| Throws (e : Thrown)
| Returns (o : Outcome).
Arguments Normal {A} a.
Arguments Throws {A} e.
Arguments Returns {A} o.

Definition M (A : Type) : Type := W -> Completion A * W * Trace.

Definition ret {A : Type} (a : A) : M A := fun w => (Normal a, w, []).

Definition bind {A B : Type} (m : M A) (k : A -> M B) : M B :=
  fun w =>
    match m w with
    | (Normal a, w1, t1) =>
        match k a w1 with (c, w2, t2) => (c, w2, (t1 ++ t2)%list) end
    | (Throws e, w1, t1) => (Throws e, w1, t1)
    | (Returns o, w1, t1) => (Returns o, w1, t1)
    end.

(** [try { m } catch (error) { h error }]: a [return] inside the block
    leaves the function without visiting the catch clause. *)
Definition try_catch {A : Type} (m : M A) (h : Thrown -> M A) : M A :=
  fun w =>
    match m w with
    | (Throws e, w1, t1) =>
        match h e w1 with (c, w2, t2) => (c, w2, (t1 ++ t2)%list) end
    | other => other
    end.

(** [await f(...)], recorded in the trace. *)
Definition call {A : Type} (f : Effect A) (ev : Res A -> Event) : M A :=
  fun w =>
    match f w with
    | (Ok a, w1) => (Normal a, w1, [ev (Ok a)])
    | (Err e, w1) => (Throws e, w1, [ev (Err e)])
    end.

Definition throw {A : Type} (e : Thrown) : M A :=
  fun w => (Throws e, w, []).

Definition lift_res {A : Type} (r : Res A) : M A :=
  match r with Ok a => ret a | Err e => throw e end.

Definition finish {A : Type} (o : Outcome) : M A :=
  fun w => (Returns o, w, []).

(** [return redirect(target)] *)
Definition redirect {A : Type} (target : JsVal) : M A :=
  finish (Redirect target).

Definition logger_error (code : string) : M unit :=
  fun w => (Normal tt, w, [EvLoggerError code]).

Definition logger_debug (code : string) : M unit :=
  fun w => (Normal tt, w, [EvLoggerDebug code]).

(** [new Date()] *)
Definition read_clock (imp : Imports) : M Z :=
  fun w => (Normal (date_now imp w), w, [EvDateNow (date_now imp w)]).

Notation "x <- c1 ;; c2" := (bind c1 (fun x => c2))
  (at level 61, c1 at next level, right associativity).
Notation "c1 ;; c2" := (bind c1 (fun _ => c2))
  (at level 61, right associativity).

(** *** lib/dispatch-event *)

(** Modelled from the spec: the module lib/dispatch-event, imported by the
    route, is not among the sources.  The Event Dispatcher "fires
    best-effort lifecycle notifications"; its failures "are swallowed/logged
    and never alter the terminal outcome".  So the listener is awaited and
    a fault it raises is logged and dropped. *)
Definition dispatchEvent (event : EventMessage -> Effect unit)
    (message : EventMessage) : M unit :=
  try_catch
    (call (event message) (EvSignInEvent message))
    (fun _ => logger_error "EVENT_ERROR").

(** *** The route *)

Section Route.

Variable imp : Imports.
Variable req : Request.
Variable options : Options.

(** [`${baseUrl}${basePath}/error?error=${code}`] *)
Definition error_page (code : string) : JsVal :=
  JStr (opt_baseUrl options ++ opt_basePath options ++ "/error?error=" ++ code).

(** Lines 70-81, 160-171 and 250-261: the sign-in policy and the catch
    clause around it, the same text in the three flows. *)
Definition check_signIn (u : User) (account : Account) (p : Payload)
    : M unit :=
  try_catch
    (signInCallbackResponse <-
       call (callbacks_signIn (opt_callbacks options) u account p)
            (EvSignIn u account p) ;;
     if is_false signInCallbackResponse
     then redirect (error_page "AccessDenied")
     else ret tt)
    (fun error =>
       match error with
       | ThrownError name message =>
           code <- lift_res (encodeURIComponent (error_toString name message)) ;;
           redirect (error_page code)
       | ThrownValue v => redirect v
       end).

Definition defaultJwtPayload (u : User) : JwtPayload :=
  {| jwt_name := user_name u;
     jwt_email := user_email u;
     jwt_picture := user_image u;
     jwt_custom := [] |}.

(** Lines 87-101, 177-191 and 263-277: shape the claims, encode them and
    set the session cookie with an expiry computed from the clock. *)
Definition set_jwt_cookie (u : User) (account : Account) (p : Payload)
    (isNewUser : bool) : M unit :=
  jwtPayload <-
    call (callbacks_jwt (opt_callbacks options) (defaultJwtPayload u) u
            account p isNewUser)
         (EvJwt (defaultJwtPayload u) u account p isNewUser) ;;
  newEncodedJwt <-
    call (opt_jwt_encode options jwtPayload) (EvJwtEncode jwtPayload) ;;
  now <- read_clock imp ;;
  cookieExpires <-
    lift_res (toISOString (now + opt_session_maxAge options * 1000)) ;;
  let cookieOptions :=
    spread_options (ExpiresAt cookieExpires)
      (opt_cookies_sessionToken_options options) in
  call (cookie_set imp (opt_cookies_sessionToken_name options) newEncodedJwt
          cookieOptions)
       (EvCookieSet (opt_cookies_sessionToken_name options) newEncodedJwt
          cookieOptions).

(** Lines 86-105 and 176-195. *)
Definition establish_session (m : Materialized) (account : Account)
    (p : Payload) : M unit :=
  if opt_session_jwt options then
    set_jwt_cookie (m_user m) account p (m_isNewUser m)
  else
    match m_session m with
    | None => throw (type_error "undefined (reading 'sessionToken')")
    | Some session =>
        let cookieOptions :=
          spread_options
            (ExpiresStored
               (if truthy (session_expires session)
                then session_expires session else None))
            (opt_cookies_sessionToken_options options) in
        call (cookie_set imp (opt_cookies_sessionToken_name options)
                (session_sessionToken session) cookieOptions)
             (EvCookieSet (opt_cookies_sessionToken_name options)
                (session_sessionToken session) cookieOptions)
    end.

(** Lines 112-117 and 202-211. *)
Definition success_redirect (isNewUser : bool) : M unit :=
  if isNewUser && truthy (opt_pages_newUser options) then
    redirect (js_of_option (opt_pages_newUser options))
  else
    redirect (JStr (or_else (opt_callbackUrl options) (opt_baseUrl options))).

(** [req.cookies ? req.cookies[cookies.sessionToken.name] : null] *)
Definition sessionToken : option string :=
  match req_cookies req with
  | Some cs => assoc (opt_cookies_sessionToken_name options) cs
  | None => None
  end.

(** Lines 35-129: the continuation handed to the OAuth exchange. *)
Definition oauth_continuation (resp : OAuthResponse) : M unit :=
  try_catch
    (if error_reported resp then
       logger_error "CALLBACK_OAUTH_ERROR" ;;
       redirect (error_page "oAuthCallback")
     else
       logger_debug "OAUTH_CALLBACK_RESPONSE" ;;
       match oa_profile resp with
       | None =>
           redirect
             (JStr (opt_baseUrl options ++ opt_basePath options ++ "/signin"))
       | Some profile =>
           let account := oa_account resp in
           let OAuthProfile := PayloadOAuthProfile (oa_OAuthProfile resp) in
           userOrProfile <-
             match opt_adapter options with
             | Some adapter =>
                 ops <- call (getAdapter adapter)
                             (fun r => EvGetAdapter (res_void r)) ;;
                 userFromProviderAccountId <-
                   call (getUserByProviderAccountId ops
                           (account_provider account) (account_id account))
                        (EvGetUserByProviderAccountId
                           (account_provider account) (account_id account)) ;;
                 ret (match userFromProviderAccountId with
                      | Some u => u
                      | None => profile
                      end)
             | None => ret profile
             end ;;
           check_signIn userOrProfile account OAuthProfile ;;
           m <- call (callbackHandler imp sessionToken profile account)
                     (EvCallbackHandler sessionToken profile account) ;;
           establish_session m account OAuthProfile ;;
           dispatchEvent (events_signIn (opt_events options))
             {| msg_user := m_user m;
                msg_account := account;
                msg_isNewUser := Some (m_isNewUser m) |} ;;
           success_redirect (m_isNewUser m)
       end)
    (fun error =>
       name <- lift_res (error_name error) ;;
       if strict_eq_str name "AccountNotLinkedError" then
         redirect (error_page "OAuthAccountNotLinked")
       else if strict_eq_str name "CreateUserError" then
         redirect (error_page "OAuthCreateAccount")
       else
         logger_error "OAUTH_CALLBACK_HANDLER_ERROR" ;;
         redirect (error_page "Callback")).

(** Lines 33-133.  The exchange either throws before it returns, or
    invokes the continuation once; a fault that escapes the continuation
    rejects the continuation's own promise and is not seen by the outer
    catch clause. *)
Definition oauth_flow (provider : Provider) : M unit :=
  resp <-
    try_catch
      (call (oAuthCallback imp req provider (opt_csrfToken options))
            EvOAuthCallback)
      (fun _ =>
         logger_error "OAUTH_CALLBACK_ERROR" ;;
         redirect (error_page "Callback")) ;;
  oauth_continuation resp.

(** Lines 155-211: what the email flow does once the verification
    request has been deleted. *)
Definition email_sign_in (ops : AdapterOps) (provider : Provider)
    (email : option string) : M unit :=
  found <- call (getUserByEmail ops email) (EvGetUserByEmail email) ;;
  let profile :=
    match found with
    | Some u => u
    | None =>
        {| user_id := None; user_name := None;
           user_email := email; user_image := None |}
    end in
  let account :=
    {| account_provider := None;
       account_id := Some (provider_id provider);
       account_type := "email";
       account_providerAccountId := email |} in
  check_signIn profile account (PayloadEmail email) ;;
  m <- call (callbackHandler imp sessionToken profile account)
            (EvCallbackHandler sessionToken profile account) ;;
  establish_session m account (PayloadUser profile) ;;
  dispatchEvent (events_signIn (opt_events options))
    {| msg_user := m_user m;
       msg_account := account;
       msg_isNewUser := Some (m_isNewUser m) |} ;;
  success_redirect (m_isNewUser m).

(** Lines 212-219: the catch clause of the email flow. *)
Definition email_catch (error : Thrown) : M unit :=
  name <- lift_res (error_name error) ;;
  if strict_eq_str name "CreateUserError" then
    redirect (error_page "EmailCreateAccount")
  else
    logger_error "CALLBACK_EMAIL_ERROR" ;;
    redirect (error_page "Callback").

(** Lines 134-219. *)
Definition email_flow (provider : Provider) : M unit :=
  try_catch
    (match opt_adapter options with
     | None =>
         logger_error "EMAIL_REQUIRES_ADAPTER_ERROR" ;;
         redirect (error_page "Configuration")
     | Some adapter =>
         ops <- call (getAdapter adapter)
                     (fun r => EvGetAdapter (res_void r)) ;;
         let verificationToken := assoc "token" (req_query req) in
         let email := assoc "email" (req_query req) in
         invite <-
           call (getVerificationRequest ops email verificationToken
                   (opt_secret options) provider)
                (EvGetVerificationRequest email verificationToken) ;;
         match invite with
         | None => redirect (error_page "Verification")
         | Some _ =>
             call (deleteVerificationRequest ops email verificationToken
                     (opt_secret options) provider)
                  (EvDeleteVerificationRequest email verificationToken) ;;
             email_sign_in ops provider email
         end
     end)
    email_catch.

(** Lines 220-281. *)
Definition credentials_flow (provider : Provider) : M unit :=
  if negb (opt_session_jwt options) then
    logger_error "CALLBACK_CREDENTIALS_JWT_ERROR" ;;
    redirect (error_page "Configuration")
  else
    match provider_authorize provider with
    | None =>
        logger_error "CALLBACK_CREDENTIALS_HANDLER_ERROR" ;;
        redirect (error_page "Configuration")
    | Some authorize =>
        let credentials := req_body req in
        userObjectReturnedFromAuthorizeHandler <-
          try_catch
            (r <- call (authorize credentials) (EvAuthorize credentials) ;;
             match r with
             | None =>
                 id <- lift_res (encodeURIComponent (provider_id provider)) ;;
                 redirect (error_page ("CredentialsSignin&provider=" ++ id))
             | Some u => ret u
             end)
            (fun error =>
               match error with
               | ThrownError name message =>
                   code <- lift_res
                             (encodeURIComponent
                                (error_toString name message)) ;;
                   redirect (error_page code)
               | ThrownValue v => redirect v
               end) ;;
        let user := userObjectReturnedFromAuthorizeHandler in
        let account :=
          {| account_provider := None;
             account_id := Some (provider_id provider);
             account_type := "credentials";
             account_providerAccountId := None |} in
        check_signIn user account (PayloadCredentials credentials) ;;
        set_jwt_cookie user account
          (PayloadUser userObjectReturnedFromAuthorizeHandler) false ;;
        dispatchEvent (events_signIn (opt_events options))
          {| msg_user := user;
             msg_account := account;
             msg_isNewUser := None |} ;;
        redirect (JStr (or_else (opt_callbackUrl options) (opt_baseUrl options)))
    end.

(** Lines 8-286: dispatch on the provider's type.  [providers] is a plain
    object: a name that is not a key of its own is looked up on
    [Object.prototype], whose members have no [type], so the last branch
    answers; any other name yields [undefined], which cannot be
    destructured. *)
Definition callback_body : M unit :=
  match assoc (opt_provider options) (opt_providers options) with
  | None =>
      if existsb (String.eqb (opt_provider options)) object_prototype_names
      then
        finish
          (Rejected 500
             "Error: Callback for provider type undefined not supported")
      else
        throw
          (ThrownError "TypeError"
             "Cannot destructure property 'type' of 'provider' as it is undefined.")
  | Some provider =>
      let type := provider_type provider in
      if String.eqb type "oauth" then oauth_flow provider
      else if String.eqb type "email" then email_flow provider
      else if String.eqb type "credentials"
              && String.eqb (req_method req) "POST"
      then credentials_flow provider
      else
        finish
          (Rejected 500
             ("Error: Callback for provider type " ++ type ++ " not supported"))
  end.

(** One invocation, from a world [w]: the terminal action, the world it
    leaves behind, and the calls it made, in order. *)
Definition callback (w : W) : Outcome * W * Trace :=
  match callback_body w with
  | (Returns o, w1, t) => (o, w1, t)
  | (Throws e, w1, t) => (Unhandled e, w1, t)
  | (Normal _, w1, t) => (NoResponse, w1, t)
  end.

Definition outcome (w : W) : Outcome := fst (fst (callback w)).
Definition final_world (w : W) : W := snd (fst (callback w)).
Definition trace (w : W) : Trace := snd (callback w).

End Route.

End Handler.

Arguments callback {W} imp req options w.
Arguments outcome {W} imp req options w.
Arguments final_world {W} imp req options w.
Arguments trace {W} imp req options w.
Arguments error_page {W} options code.
Arguments getAdapter {W} a w.
Arguments getVerificationRequest {W} a email token secret provider w.
Arguments deleteVerificationRequest {W} a email token secret provider w.
Arguments getUserByEmail {W} a email w.
Arguments getUserByProviderAccountId {W} a provider id w.

(** ** Reading a trace *)

Fixpoint first_some {A : Type} (f : Event -> option A) (tr : Trace)
    : option A :=
  match tr with
  | [] => None
  | ev :: rest =>
      match f ev with
      | Some a => Some a
      | None => first_some f rest
      end
  end.

(** What the sign-in policy resolved to, if it was consulted. *)
Definition signIn_result : Trace -> option (Res JsVal) :=
  first_some (fun ev =>
    match ev with EvSignIn _ _ _ r => Some r | _ => None end).

(** What the lookup of the verification request resolved to. *)
Definition verification_lookup
    : Trace -> option (Res (option VerificationRequest)) :=
  first_some (fun ev =>
    match ev with EvGetVerificationRequest _ _ r => Some r | _ => None end).

(** What the deletion of the verification request resolved to. *)
Definition verification_deletion : Trace -> option (Res unit) :=
  first_some (fun ev =>
    match ev with EvDeleteVerificationRequest _ _ r => Some r | _ => None end).

(** What materialization ([callbackHandler]) resolved to. *)
Definition materialization_result : Trace -> option (Res Materialized) :=
  first_some (fun ev =>
    match ev with EvCallbackHandler _ _ _ r => Some r | _ => None end).

(** The message of the sign-in event that was dispatched. *)
Definition signin_event : Trace -> option EventMessage :=
  first_some (fun ev =>
    match ev with EvSignInEvent m _ => Some m | _ => None end).

Definition is_new_user (m : EventMessage) : bool :=
  match msg_isNewUser m with Some true => true | _ => false end.

Definition is_cookie_set (ev : Event) : bool :=
  match ev with EvCookieSet _ _ _ _ => true | _ => false end.

Definition is_jwt_encode (ev : Event) : bool :=
  match ev with EvJwtEncode _ _ => true | _ => false end.

Definition is_materialization (ev : Event) : bool :=
  match ev with EvCallbackHandler _ _ _ _ => true | _ => false end.

Definition is_signin_event (ev : Event) : bool :=
  match ev with EvSignInEvent _ _ => true | _ => false end.

Definition is_authorize (ev : Event) : bool :=
  match ev with EvAuthorize _ _ => true | _ => false end.

(** A call to the persistence adapter. *)
Definition is_adapter_call (ev : Event) : bool :=
  match ev with
  | EvGetAdapter _
  | EvGetUserByProviderAccountId _ _ _
  | EvGetVerificationRequest _ _ _
  | EvDeleteVerificationRequest _ _ _
  | EvGetUserByEmail _ _ => true
  | _ => false
  end.



(** Replace the configured event listeners. *)
Definition with_events {W : Type} (o : Options W) (ev : Events W)
    : Options W :=
  {| opt_provider := opt_provider W o;
     opt_providers := opt_providers W o;
     opt_adapter := opt_adapter W o;
     opt_baseUrl := opt_baseUrl W o;
     opt_basePath := opt_basePath W o;
     opt_secret := opt_secret W o;
     opt_cookies_sessionToken_name := opt_cookies_sessionToken_name W o;
     opt_cookies_sessionToken_options :=
       opt_cookies_sessionToken_options W o;
     opt_callbackUrl := opt_callbackUrl W o;
     opt_pages_newUser := opt_pages_newUser W o;
     opt_jwt_encode := opt_jwt_encode W o;
     opt_events := ev;
     opt_callbacks := opt_callbacks W o;
     opt_csrfToken := opt_csrfToken W o;
     opt_session_jwt := opt_session_jwt W o;
     opt_session_maxAge := opt_session_maxAge W o |}.

(** ** A small deployment to run the handler on

    The world is the list of pending verification requests, as
    (email, token) pairs. *)

Module Demo.

Definition Store : Type := list (string * string).

Definition same_request (email token : option string)
    (entry : string * string) : bool :=
  match email, token with
  | Some e, Some t => String.eqb (fst entry) e && String.eqb (snd entry) t
  | _, _ => false
  end.

Definition pending (email token : option string) (w : Store) : bool :=
  existsb (same_request email token) w.

Definition ops : AdapterOps Store :=
  {| getUserByProviderAccountId := fun _ _ w => (Ok None, w);
     getVerificationRequest := fun email token _ _ w =>
       (Ok (if pending email token w
            then Some {| vr_identifier := or_else email "";
                         vr_token := or_else token "";
                         vr_expires := 0 |}
            else None), w);
     deleteVerificationRequest := fun email token _ _ w =>
       (Ok tt, filter (fun entry => negb (same_request email token entry)) w);
     getUserByEmail := fun _ w => (Ok None, w) |}.

Definition adapter : Adapter Store :=
  {| getAdapter := fun w => (Ok ops, w) |}.

Definition alice : User :=
  {| user_id := Some "1"; user_name := Some "Alice";
     user_email := Some "alice@example.com"; user_image := None |}.

Definition providers : list (string * Provider Store) :=
  [ ("github",
     {| provider_id := "github"; provider_type := "oauth";
        provider_authorize := None |});
    ("email",
     {| provider_id := "email"; provider_type := "email";
        provider_authorize := None |});
    ("credentials",
     {| provider_id := "credentials"; provider_type := "credentials";
        provider_authorize := Some (fun _ w => (Ok (Some alice), w)) |});
    ("saml",
     {| provider_id := "saml"; provider_type := "saml";
        provider_authorize := None |}) ].

(** A deployment for provider [name], in stateless ([useJwt]) or persisted
    session mode, whose sign-in policy resolves to [policy] and whose
    sign-in listener resolves to [listener]. *)
Definition options (name : string) (useJwt : bool) (policy : Res JsVal)
    (listener : Res unit) : Options Store :=
  {| opt_provider := name;
     opt_providers := providers;
     opt_adapter := Some adapter;
     opt_baseUrl := "https://example.com";
     opt_basePath := "/api/auth";
     opt_secret := "secret";
     opt_cookies_sessionToken_name := "next-auth.session-token";
     opt_cookies_sessionToken_options :=
       [("httpOnly", JBool true); ("sameSite", JStr "lax");
        ("path", JStr "/")];
     opt_callbackUrl := Some "https://example.com/dashboard";
     opt_pages_newUser := None;
     opt_jwt_encode := fun _ w => (Ok "encoded.jwt", w);
     opt_events := {| events_signIn := fun _ w => (listener, w) |};
     opt_callbacks :=
       {| callbacks_signIn := fun _ _ _ w => (policy, w);
          callbacks_jwt := fun defaults _ _ _ _ w => (Ok defaults, w) |};
     opt_csrfToken := "csrf";
     opt_session_jwt := useJwt;
     opt_session_maxAge := 2592000 |}.

(** The imported modules; materialization resolves to [materialized]. *)
Definition imports (materialized : Res Materialized) : Imports Store :=
  {| oAuthCallback := fun _ _ _ w =>
       (Ok {| oa_error := None; oa_profile := Some alice;
              oa_account :=
                {| account_provider := Some "github";
                   account_id := Some "42";
                   account_type := "oauth";
                   account_providerAccountId := None |};
              oa_OAuthProfile := [("login", "alice")] |}, w);
     callbackHandler := fun _ _ _ w => (materialized, w);
     cookie_set := fun _ _ _ w => (Ok tt, w);
     date_now := fun _ => 1600000000000%Z |}.

Definition returning_user : Res Materialized :=
  Ok {| m_user := alice;
        m_session :=
          Some {| session_sessionToken := "opaque";
                  session_expires := Some "2030-01-01T00:00:00.000Z" |};
        m_isNewUser := false |}.

Definition get_request : Request :=
  {| req_method := "GET"; req_cookies := None;
     req_query := [("email", "alice@example.com"); ("token", "t0k3n")];
     req_body := [] |}.

Definition post_request : Request :=
  {| req_method := "POST"; req_cookies := None; req_query := [];
     req_body := [("username", "alice"); ("password", "pw")] |}.

Definition store : Store := [("alice@example.com", "t0k3n")].

Definition email_provider : Provider Store :=
  {| provider_id := "email"; provider_type := "email";
     provider_authorize := None |}.

(** A sign-in policy that lets everyone in. *)
Definition allow : Res JsVal := Ok (JBool true).

(** The pair of [get_request] is no longer pending. *)
Definition consumed (w : Store) : Prop :=
  pending (Some "alice@example.com") (Some "t0k3n") w = false.

End Demo.

(** ** Invariants of the world

    The persistence adapter and the deployment's callbacks are outside the
    route; what the route can rely on is stated as a property [I] of the
    world that their calls establish or keep. *)

Section Invariant.

Variable W : Type.
Variable I : W -> Prop.

(** A call keeps [I]. *)
Definition keeps {A : Type} (f : Effect W A) : Prop :=
  forall w, I w -> I (snd (f w)).

(** A block of the route keeps [I], however it completes. *)
Definition block_keeps {A : Type} (m : M W A) : Prop :=
  forall w, I w -> I (snd (fst (m w))).

(** Everything the email flow calls after the deletion keeps [I]. *)
Record later_steps_keep (imp : Imports W) (o : Options W) : Prop := {
  keeps_getUserByEmail :
    forall adapter w ops w' email,
      opt_adapter W o = Some adapter ->
      getAdapter adapter w = (Ok ops, w') ->
      keeps (getUserByEmail ops email);
  keeps_signIn :
    forall u a p, keeps (callbacks_signIn W (opt_callbacks W o) u a p);
  keeps_callbackHandler :
    forall t u a, keeps (callbackHandler W imp t u a);
  keeps_jwt :
    forall d u a p n, keeps (callbacks_jwt W (opt_callbacks W o) d u a p n);
  keeps_jwt_encode : forall t, keeps (opt_jwt_encode W o t);
  keeps_cookie_set : forall n v e, keeps (cookie_set W imp n v e);
  keeps_listener : forall m, keeps (events_signIn W (opt_events W o) m)
}.

(** A deletion of the pair that resolves establishes [I]. *)
Definition deletion_establishes (o : Options W) (provider : Provider W)
    (email token : option string) : Prop :=
  forall adapter w ops w1 w2 w3,
    opt_adapter W o = Some adapter ->
    getAdapter adapter w = (Ok ops, w1) ->
    deleteVerificationRequest ops email token (opt_secret W o) provider w2
      = (Ok tt, w3) ->
    I w3.

(** In a world where [I] holds the adapter is reachable and the lookup of
    the pair finds nothing. *)
Definition lookup_misses (o : Options W) (provider : Provider W)
    (email token : option string) : Prop :=
  forall adapter w,
    opt_adapter W o = Some adapter ->
    I w ->
    exists ops w1 w2,
      getAdapter adapter w = (Ok ops, w1)
      /\ getVerificationRequest ops email token (opt_secret W o) provider w1
           = (Ok None, w2).

End Invariant.

Arguments keeps {W} I {A} f.
Arguments block_keeps {W} I {A} m.
Arguments later_steps_keep {W} I imp o.
Arguments deletion_establishes {W} I o provider email token.
Arguments lookup_misses {W} I o provider email token.

(** ** More ways to read a trace *)

(** What the OAuth exchange resolved to. *)
Definition exchange_result : Trace -> option (Res OAuthResponse) :=
  first_some (fun ev =>
    match ev with EvOAuthCallback r => Some r | _ => None end).

(** What the provider's [authorize] resolved to. *)
Definition authorize_result : Trace -> option (Res (option User)) :=
  first_some (fun ev =>
    match ev with EvAuthorize _ r => Some r | _ => None end).

(** What the adapter's lookup by provider account resolved to. *)
Definition stored_user_lookup : Trace -> option (Res (option User)) :=
  first_some (fun ev =>
    match ev with
    | EvGetUserByProviderAccountId _ _ r => Some r
    | _ => None
    end).

(** The user or profile the sign-in policy was asked about. *)
Definition signIn_subject : Trace -> option User :=
  first_some (fun ev =>
    match ev with EvSignIn u _ _ _ => Some u | _ => None end).

(** The profile and account handed to materialization. *)
Definition materialization_input : Trace -> option (User * Account) :=
  first_some (fun ev =>
    match ev with EvCallbackHandler _ p a _ => Some (p, a) | _ => None end).

(** What [jwt.encode] resolved to. *)
Definition jwt_encode_result : Trace -> option (Res string) :=
  first_some (fun ev =>
    match ev with EvJwtEncode _ r => Some r | _ => None end).

(** The value and options of the session cookie. *)
Definition cookie_written : Trace -> option (string * CookieOptions) :=
  first_some (fun ev =>
    match ev with EvCookieSet _ v e _ => Some (v, e) | _ => None end).

(** The reading of the clock. *)
Definition clock_reading : Trace -> option Z :=
  first_some (fun ev =>
    match ev with EvDateNow ms => Some ms | _ => None end).

(** The fault of a call, if it rejected. *)
Definition fault_of {A : Type} (r : Res A) : option Thrown :=
  match r with Ok _ => None | Err e => Some e end.

Definition event_fault (ev : Event) : option Thrown :=
  match ev with
  | EvLoggerError _ | EvLoggerDebug _ | EvDateNow _ => None
  | EvOAuthCallback r => fault_of r
  | EvGetAdapter r => fault_of r
  | EvGetUserByProviderAccountId _ _ r => fault_of r
  | EvGetVerificationRequest _ _ r => fault_of r
  | EvDeleteVerificationRequest _ _ r => fault_of r
  | EvGetUserByEmail _ r => fault_of r
  | EvAuthorize _ r => fault_of r
  | EvSignIn _ _ _ r => fault_of r
  | EvCallbackHandler _ _ _ r => fault_of r
  | EvJwt _ _ _ _ _ r => fault_of r
  | EvJwtEncode _ r => fault_of r
  | EvCookieSet _ _ _ r => fault_of r
  | EvSignInEvent _ r => fault_of r
  end.

(** A call rejected with [null] or [undefined]. *)
Definition nullish_fault (ev : Event) : bool :=
  match event_fault ev with
  | Some (ThrownValue JNull) | Some (ThrownValue JUndefined) => true
  | _ => false
  end.

(** The first fault among the calls that shape and store the session:
    [callbacks.jwt], [jwt.encode] and [cookie.set]. *)
Definition session_fault : Trace -> option Thrown :=
  first_some (fun ev =>
    match ev with
    | EvJwt _ _ _ _ _ r => fault_of r
    | EvJwtEncode _ r => fault_of r
    | EvCookieSet _ _ _ r => fault_of r
    | _ => None
    end).


Definition is_signIn_call (ev : Event) : bool :=
  match ev with EvSignIn _ _ _ _ => true | _ => false end.

Definition is_jwt_call (ev : Event) : bool :=
  match ev with EvJwt _ _ _ _ _ _ => true | _ => false end.

(** The sign-in policy resolved to something other than [false]. *)
Definition policy_allowed (ev : Event) : bool :=
  match ev with EvSignIn _ _ _ (Ok v) => negb (is_false v) | _ => false end.

(** [cookie.set] resolved. *)
Definition cookie_resolved (ev : Event) : bool :=
  match ev with EvCookieSet _ _ _ (Ok _) => true | _ => false end.

(** The log entry of a listener's fault. *)
Definition is_event_error_log (ev : Event) : bool :=
  match ev with EvLoggerError code => String.eqb code "EVENT_ERROR" | _ => false end.

(** Every [q] entry of the trace comes after some [p] entry; [seen] tells
    whether a [p] entry came before the trace. *)
Fixpoint preceded_by (p q : Event -> bool) (seen : bool) (tr : Trace) : bool :=
  match tr with
  | [] => true
  | ev :: rest =>
      (if q ev then seen else true) && preceded_by p q (seen || p ev) rest
  end.

Definition count (p : Event -> bool) (tr : Trace) : nat :=
  length (filter p tr).

(** ** The default event listeners (lib/default-events)

    [const signIn = async (message) => {}]: the listener resolves and
    touches nothing.  The five other listeners of the module have the same
    empty body; the callback route dispatches none of them. *)
Definition default_events (W : Type) : Events W :=
  {| events_signIn := fun _ w => (Ok tt, w) |}.

(** ** The sign-in page (pages/signin.js) *)

(** One entry of [provider.credentials]. *)
Record CredentialField : Type := mkCredentialField {
  field_label : option string;
  field_type : option string;
  field_value : option string;
  field_placeholder : option string
}.

(** A provider as the page sees it; [credentials] is an object whose keys
    are listed in insertion order, or is absent. *)
Record PageProvider : Type := mkPageProvider {
  pp_id : string;
  pp_name : string;
  pp_type : string;
  pp_signinUrl : string;
  pp_callbackUrl : string;
  pp_credentials : option (list (string * CredentialField))
}.

(** The virtual DOM handed to [render]: an element with its props and
    children, or a text. *)
#[warnings="-register-all"]
Inductive VNode : Type :=
| VElement (tag : string) (props : list (string * JsVal))
    (children : list VNode)
| VText (s : string).

(** [{cond && <node />}]: a child that is [false], [undefined] or the
    empty string renders nothing and is left out. *)
Definition when (cond : bool) (node : VNode) : list VNode :=
  if cond then [node] else [].

(** [array.map((x, i) => f x i)] for an [f] that may throw. *)
Fixpoint map_indexed {A B : Type} (f : A -> nat -> Res B) (i : nat)
    (l : list A) : Res (list B) :=
  match l with
  | [] => Ok []
  | x :: rest =>
      match f x i with
      | Err e => Err e
      | Ok y =>
          match map_indexed f (S i) rest with
          | Err e => Err e
          | Ok ys => Ok (y :: ys)
          end
      end
  end.

(** The predicate of [providers.filter]. *)
Definition renderable (provider : PageProvider) : bool :=
  if String.eqb (pp_type provider) "oauth"
     || String.eqb (pp_type provider) "email" then true
  else if String.eqb (pp_type provider) "credentials"
          && (match pp_credentials provider with
              | Some _ => true
              | None => false
              end) then true
  else false.

Definition paragraph (text : string) : VNode :=
  VElement "p" [] [VText text].

(** The [switch] on [error]. *)
Definition errorMessage (error : option string) : option VNode :=
  match error with
  | Some code =>
      if String.eqb code "" then None
      else if existsb (String.eqb code)
                ["Signin"; "OAuthSignin"; "OAuthCallback";
                 "OAuthCreateAccount"; "EmailCreateAccount"; "Callback"]
      then Some (paragraph "Try signing with a different account.")
      else if String.eqb code "OAuthAccountNotLinked"
      then Some (paragraph
                   "To confirm your identity, sign in with the same account you used originally.")
      else if String.eqb code "EmailSignin"
      then Some (paragraph "Check your email address.")
      else if String.eqb code "CredentialsSignin"
      then Some (paragraph
                   "Sign in failed. Check the details you provided are correct.")
      else Some (paragraph "Unable to sign in.")
  | None => None
  end.

Definition hidden_input (name value : string) : VNode :=
  VElement "input"
    [("type", JStr "hidden"); ("name", JStr name); ("value", JStr value)] [].

Definition hr : VNode := VElement "hr" [] [].

Definition submit_label (provider : PageProvider) : list VNode :=
  [VText "Sign in with "; VText (pp_name provider)].

Definition oauth_form (csrfToken : string) (callbackUrl : option string)
    (provider : PageProvider) : VNode :=
  VElement "form"
    [("action", JStr (pp_signinUrl provider)); ("method", JStr "POST")]
    ([hidden_input "csrfToken" csrfToken]
       ++ when (truthy callbackUrl)
            (VElement "input"
               [("type", JStr "hidden"); ("name", JStr "callbackUrl");
                ("value", js_of_option callbackUrl)] [])
       ++ [VElement "button"
             [("type", JStr "submit"); ("className", JStr "button")]
             (submit_label provider)]).

Definition email_form (csrfToken : string) (email : option string)
    (provider : PageProvider) : VNode :=
  let input_id := "input-email-for-" ++ pp_id provider ++ "-provider" in
  VElement "form"
    [("action", JStr (pp_signinUrl provider)); ("method", JStr "POST")]
    [hidden_input "csrfToken" csrfToken;
     VElement "label" [("for", JStr input_id)] [VText "Email"];
     VElement "input"
       [("id", JStr input_id); ("autoFocus", JBool true);
        ("type", JStr "text"); ("name", JStr "email");
        ("value", js_of_option email);
        ("placeholder", JStr "email@example.com")] [];
     VElement "button" [("type", JStr "submit")] (submit_label provider)].

(** One entry of [Object.keys(provider.credentials).map(...)]. *)
Definition credential_input (provider : PageProvider)
    (entry : string * CredentialField) : VNode :=
  let credential := fst entry in
  let field := snd entry in
  let input_id :=
    "input-" ++ credential ++ "-for-" ++ pp_id provider ++ "-provider" in
  VElement "div" [("key", JStr ("input-group-" ++ pp_id provider))]
    [VElement "label" [("for", JStr input_id)]
       [VText (or_else (field_label field) credential)];
     VElement "input"
       [("name", JStr credential); ("id", JStr input_id);
        ("type", JStr (or_else (field_type field) "text"));
        ("value", JStr (or_else (field_value field) ""));
        ("placeholder", JStr (or_else (field_placeholder field) ""))] []].

(** [Object.keys] of an absent [credentials] throws. *)
Definition credentials_form (csrfToken : string) (provider : PageProvider)
    : Res VNode :=
  match pp_credentials provider with
  | None => Err (type_error "undefined (converting to object)")
  | Some fields =>
      Ok (VElement "form"
            [("action", JStr (pp_callbackUrl provider));
             ("method", JStr "POST")]
            ([hidden_input "csrfToken" csrfToken]
               ++ map (credential_input provider) fields
               ++ [VElement "button" [("type", JStr "submit")]
                     (submit_label provider)]))
  end.

Definition is_field_type (type : string) : bool :=
  String.eqb type "email" || String.eqb type "credentials".

(** [providersToRender[i - 1].type], which throws past the array. *)
Definition previous_type (providersToRender : list PageProvider) (i : nat)
    : Res string :=
  match nth_error providersToRender (i - 1) with
  | Some previous => Ok (pp_type previous)
  | None => Err (type_error "undefined (reading 'type')")
  end.

(** The [div] of one provider. *)
Definition provider_block (csrfToken : string) (email callbackUrl : option string)
    (providersToRender : list PageProvider)
    (provider : PageProvider) (i : nat) : Res VNode :=
  let type := pp_type provider in
  match
    (if is_field_type type && (0 <? i)%nat then
       match previous_type providersToRender i with
       | Ok previous =>
           Ok (negb (String.eqb previous "email")
               && negb (String.eqb previous "credentials"))
       | Err e => Err e
       end
     else Ok false)
  with
  | Err e => Err e
  | Ok rule_above =>
      match
        (if String.eqb type "credentials"
         then match credentials_form csrfToken provider with
              | Ok form => Ok [form]
              | Err e => Err e
              end
         else Ok [])
      with
      | Err e => Err e
      | Ok credentials_part =>
          Ok (VElement "div"
                [("key", JStr (pp_id provider)); ("className", JStr "provider")]
                (when (String.eqb type "oauth")
                   (oauth_form csrfToken callbackUrl provider)
                 ++ when rule_above hr
                 ++ when (String.eqb type "email")
                      (email_form csrfToken email provider)
                 ++ credentials_part
                 ++ when (is_field_type type
                          && (i + 1 <? length providersToRender)%nat) hr))
      end
  end.

(** The page: the tree that is rendered to a string. *)
Definition signin (req : Request) (csrfToken : string)
    (providers : list PageProvider) (callbackUrl : option string)
    : Res VNode :=
  let email := assoc "email" (req_query req) in
  let error := assoc "error" (req_query req) in
  let providersToRender := filter renderable providers in
  match
    map_indexed (provider_block csrfToken email callbackUrl providersToRender)
      0 providersToRender
  with
  | Err e => Err e
  | Ok blocks =>
      Ok (VElement "div" [("className", JStr "signin")]
            (match errorMessage error with
             | Some message =>
                 [VElement "div" [("className", JStr "error")] [message]]
             | None => []
             end ++ blocks))
  end.

(** *** Reading a view *)

Definition tag_of (n : VNode) : string :=
  match n with VElement tag _ _ => tag | VText _ => "" end.

Definition props_of (n : VNode) : list (string * JsVal) :=
  match n with VElement _ props _ => props | VText _ => [] end.

Definition children_of (n : VNode) : list VNode :=
  match n with VElement _ _ children => children | VText _ => [] end.

(** The node and all its descendants, in document order. *)
Fixpoint elements (n : VNode) : list VNode :=
  match n with
  | VElement _ _ children => n :: flat_map elements children
  | VText _ => [n]
  end.

Definition is_provider_block (n : VNode) : bool :=
  match assoc "className" (props_of n) with
  | Some (JStr c) => String.eqb c "provider"
  | _ => false
  end.

Definition is_error_box (n : VNode) : bool :=
  match assoc "className" (props_of n) with
  | Some (JStr c) => String.eqb c "error"
  | _ => false
  end.

(** The tags of what the provider blocks contain, top to bottom: the
    sequence of forms and rules a visitor sees. *)
Definition outline (view : VNode) : list string :=
  flat_map (fun block => map tag_of (children_of block))
    (filter is_provider_block (children_of view)).

(** The [key]s of the provider blocks. *)
Definition block_keys (view : VNode) : list (option JsVal) :=
  map (fun block => assoc "key" (props_of block))
    (filter is_provider_block (children_of view)).

(** A form posts, and its first field is the hidden CSRF token. *)
Definition form_carries_token (csrfToken : string) (n : VNode) : bool :=
  match n with
  | VElement tag props
      (VElement "input"
         [("type", JStr "hidden"); ("name", JStr "csrfToken");
          ("value", JStr token)] [] :: _) =>
      match assoc "method" props with
      | Some (JStr m) => String.eqb m "POST" && String.eqb token csrfToken
      | _ => false
      end
  | _ => false
  end.

Definition form_guarded (csrfToken : string) (n : VNode) : bool :=
  if String.eqb (tag_of n) "form" then form_carries_token csrfToken n
  else true.

(** Forms in order, with one rule between two neighbours unless both are
    of a type other than [email] and [credentials]. *)
Fixpoint separated_forms (types : list string) : list string :=
  match types with
  | [] => []
  | t1 :: rest =>
      "form"
        :: match rest with
           | [] => []
           | t2 :: _ =>
               (if is_field_type t1 || is_field_type t2 then ["hr"] else [])
                 ++ separated_forms rest
           end
  end.

(** The rule a block starts with, and the rule it ends with. *)
Definition rule_above (l : list PageProvider) (p : PageProvider) (i : nat)
    : list string :=
  if is_field_type (pp_type p) && (0 <? i)%nat
     && negb (is_field_type
                (match nth_error l (i - 1) with
                 | Some q => pp_type q
                 | None => ""
                 end))
  then ["hr"] else [].

Definition rule_below (l : list PageProvider) (p : PageProvider) (i : nat)
    : list string :=
  if is_field_type (pp_type p) && (i + 1 <? length l)%nat
  then ["hr"] else [].

(** ** A deployment with knobs

    The same small deployment, where what each collaborator resolves to can
    be chosen. *)

Module Scenario.

Record Knobs : Type := mkKnobs {
  exchange : Res OAuthResponse;
  stored_user : Res (option User);
  adapter_configured : bool;
  policy : Res JsVal;
  materialized : Res Materialized;
  shaped : Res unit;
  encoded : Res string;
  cookie_stored : Res unit;
  listener : Res unit;
  authorized : option (Res (option User));
  stateless : bool;
  newUser_page : option string
}.

Definition github_account : Account :=
  {| account_provider := Some "github"; account_id := Some "42";
     account_type := "oauth"; account_providerAccountId := None |}.

Definition github_profile : User :=
  {| user_id := None; user_name := Some "alice";
     user_email := Some "alice@example.com"; user_image := None |}.

Definition exchanged : OAuthResponse :=
  {| oa_error := None; oa_profile := Some github_profile;
     oa_account := github_account; oa_OAuthProfile := [("login", "alice")] |}.

(** Everything resolves; sessions are stateless. *)
Definition smooth : Knobs :=
  {| exchange := Ok exchanged;
     stored_user := Ok None;
     adapter_configured := true;
     policy := Demo.allow;
     materialized := Demo.returning_user;
     shaped := Ok tt;
     encoded := Ok "encoded.jwt";
     cookie_stored := Ok tt;
     listener := Ok tt;
     authorized := Some (Ok (Some Demo.alice));
     stateless := true;
     newUser_page := None |}.

Definition with_exchange (r : Res OAuthResponse) (k : Knobs) : Knobs :=
  mkKnobs r (stored_user k) (adapter_configured k) (policy k)
    (materialized k) (shaped k) (encoded k) (cookie_stored k) (listener k)
    (authorized k) (stateless k) (newUser_page k).

Definition with_stored_user (r : Res (option User)) (k : Knobs) : Knobs :=
  mkKnobs (exchange k) r (adapter_configured k) (policy k)
    (materialized k) (shaped k) (encoded k) (cookie_stored k) (listener k)
    (authorized k) (stateless k) (newUser_page k).

Definition without_adapter (k : Knobs) : Knobs :=
  mkKnobs (exchange k) (stored_user k) false (policy k)
    (materialized k) (shaped k) (encoded k) (cookie_stored k) (listener k)
    (authorized k) (stateless k) (newUser_page k).

Definition with_policy (r : Res JsVal) (k : Knobs) : Knobs :=
  mkKnobs (exchange k) (stored_user k) (adapter_configured k) r
    (materialized k) (shaped k) (encoded k) (cookie_stored k) (listener k)
    (authorized k) (stateless k) (newUser_page k).

Definition with_materialized (r : Res Materialized) (k : Knobs) : Knobs :=
  mkKnobs (exchange k) (stored_user k) (adapter_configured k) (policy k)
    r (shaped k) (encoded k) (cookie_stored k) (listener k)
    (authorized k) (stateless k) (newUser_page k).

Definition with_encoded (r : Res string) (k : Knobs) : Knobs :=
  mkKnobs (exchange k) (stored_user k) (adapter_configured k) (policy k)
    (materialized k) (shaped k) r (cookie_stored k) (listener k)
    (authorized k) (stateless k) (newUser_page k).

Definition with_authorized (r : option (Res (option User))) (k : Knobs)
    : Knobs :=
  mkKnobs (exchange k) (stored_user k) (adapter_configured k) (policy k)
    (materialized k) (shaped k) (encoded k) (cookie_stored k) (listener k)
    r (stateless k) (newUser_page k).

Definition persisted (k : Knobs) : Knobs :=
  mkKnobs (exchange k) (stored_user k) (adapter_configured k) (policy k)
    (materialized k) (shaped k) (encoded k) (cookie_stored k) (listener k)
    (authorized k) false (newUser_page k).

Definition with_newUser_page (page : option string) (k : Knobs) : Knobs :=
  mkKnobs (exchange k) (stored_user k) (adapter_configured k) (policy k)
    (materialized k) (shaped k) (encoded k) (cookie_stored k) (listener k)
    (authorized k) (stateless k) page.

Definition ops (k : Knobs) : AdapterOps Demo.Store :=
  {| getUserByProviderAccountId := fun _ _ w => (stored_user k, w);
     getVerificationRequest := getVerificationRequest Demo.ops;
     deleteVerificationRequest := deleteVerificationRequest Demo.ops;
     getUserByEmail := getUserByEmail Demo.ops |}.

Definition providers (k : Knobs) : list (string * Provider Demo.Store) :=
  [ ("github",
     {| provider_id := "github"; provider_type := "oauth";
        provider_authorize := None |});
    ("email", Demo.email_provider);
    ("login",
     {| provider_id := "login form"; provider_type := "credentials";
        provider_authorize :=
          match authorized k with
          | Some r => Some (fun _ w => (r, w))
          | None => None
          end |}) ].

Definition options (name : string) (k : Knobs) : Options Demo.Store :=
  {| opt_provider := name;
     opt_providers := providers k;
     opt_adapter :=
       if adapter_configured k
       then Some {| getAdapter := fun w => (Ok (ops k), w) |}
       else None;
     opt_baseUrl := "https://example.com";
     opt_basePath := "/api/auth";
     opt_secret := "secret";
     opt_cookies_sessionToken_name := "next-auth.session-token";
     opt_cookies_sessionToken_options :=
       [("httpOnly", JBool true); ("sameSite", JStr "lax");
        ("path", JStr "/")];
     opt_callbackUrl := Some "https://example.com/dashboard";
     opt_pages_newUser := newUser_page k;
     opt_jwt_encode := fun _ w => (encoded k, w);
     opt_events := {| events_signIn := fun _ w => (listener k, w) |};
     opt_callbacks :=
       {| callbacks_signIn := fun _ _ _ w => (policy k, w);
          callbacks_jwt := fun defaults _ _ _ _ w =>
            (match shaped k with Ok _ => Ok defaults | Err e => Err e end, w) |};
     opt_csrfToken := "csrf";
     opt_session_jwt := stateless k;
     opt_session_maxAge := 2592000 |}.

Definition imports (k : Knobs) : Imports Demo.Store :=
  {| oAuthCallback := fun _ _ _ w => (exchange k, w);
     callbackHandler := fun _ _ _ w => (materialized k, w);
     cookie_set := fun _ _ _ w => (cookie_stored k, w);
     date_now := fun _ => 1600000000000%Z |}.

(** One invocation of the route for provider [name]: how it ends and
    what it called. *)
Definition result (name : string) (req : Request) (k : Knobs) : Outcome :=
  outcome (imports k) req (options name k) Demo.store.

Definition calls (name : string) (req : Request) (k : Knobs) : Trace :=
  trace (imports k) req (options name k) Demo.store.

Definition exchange_failed : OAuthResponse :=
  {| oa_error := Some (ThrownValue (JStr "access_denied"));
     oa_profile := Some github_profile;
     oa_account := github_account; oa_OAuthProfile := [] |}.

Definition exchange_cancelled : OAuthResponse :=
  {| oa_error := None; oa_profile := None;
     oa_account := github_account; oa_OAuthProfile := [] |}.

Definition new_user : Res Materialized :=
  Ok {| m_user := Demo.alice;
        m_session :=
          Some {| session_sessionToken := "opaque"; session_expires := None |};
        m_isNewUser := true |}.

Definition no_session : Res Materialized :=
  Ok {| m_user := Demo.alice; m_session := None; m_isNewUser := false |}.

End Scenario.

(** ** Proof automation *)

Ltac unfold_route :=
  unfold outcome, trace, final_world, callback, callback_body, oauth_flow,
    oauth_continuation, email_flow, email_sign_in, email_catch,
    credentials_flow, check_signIn,
    establish_session, set_jwt_cookie, success_redirect, dispatchEvent,
    encodeURIComponent, toISOString,
    bind, try_catch, call, ret, redirect, finish, throw, lift_res,
    logger_error, logger_debug, read_clock in *.

Ltac unfold_observers :=
  unfold signIn_result, verification_lookup, verification_deletion,
    materialization_result, signin_event in *.

(** Split on the innermost scrutinee that blocks evaluation. *)
Ltac innermost x :=
  lazymatch x with
  | context [match _ with _ => _ end] => fail
  | _ => idtac
  end.

Ltac split_on x :=
  innermost x;
  first [ is_var x; destruct x | destruct x eqn:? ].

Ltac walk_step :=
  match goal with
  | H : (_, _) = (_, _) |- _ => inversion H; clear H; try subst
  | H : Some _ = Some _ |- _ => injection H as H; try subst
  | H : Ok _ = Ok _ |- _ => injection H as H; try subst
  | H : Err _ = Err _ |- _ => injection H as H; try subst
  | H : context [match ?x with _ => _ end] |- _ => split_on x
  | |- context [match ?x with _ => _ end] => split_on x
  end.

Ltac walk :=
  repeat (simpl in *; try discriminate; try walk_step).

(** Name the outcome, final world and trace of the invocation, so that the
    route is unfolded in one place only. *)
Ltac focus_run :=
  unfold outcome, trace, final_world in *;
  match goal with
  | |- context [callback ?i ?r ?o ?w] =>
      let E := fresh "Erun" in
      destruct (callback i r o w) as [[? ?] ?] eqn:E
  | H : context [callback ?i ?r ?o ?w] |- _ =>
      let E := fresh "Erun" in
      destruct (callback i r o w) as [[? ?] ?] eqn:E
  end;
  simpl fst in *; simpl snd in *;
  unfold_route.

(** ** Facts about strings and [encodeURIComponent] *)

Lemma append_nil_r (s : string) : s ++ "" = s.
Proof.
  induction s as [|c s IH]; simpl; [reflexivity | now rewrite IH].
Qed.

Lemma append_assoc (a b c : string) : (a ++ b) ++ c = a ++ (b ++ c).
Proof.
  induction a as [|x a IH]; simpl; [reflexivity | now rewrite IH].
Qed.

Lemma append_inv_head (a b c : string) : a ++ b = a ++ c -> b = c.
Proof.
  induction a as [|x a IH]; simpl; intros H.
  - exact H.
  - injection H as H. auto.
Qed.

(** Escaping works byte by byte, so it distributes over concatenation. *)
Lemma percent_escape_app (a b : string) :
  percent_escape (a ++ b) = percent_escape a ++ percent_escape b.
Proof.
  induction a as [|c a IH]; simpl.
  - reflexivity.
  - rewrite IH. now rewrite append_assoc.
Qed.

Lemma forallb_string_app (p : ascii -> bool) (a b : string) :
  forallb p (list_ascii_of_string (a ++ b)) =
  forallb p (list_ascii_of_string a) && forallb p (list_ascii_of_string b).
Proof.
  induction a as [|c a IH]; simpl; [reflexivity|].
  rewrite IH. now rewrite andb_assoc.
Qed.

Lemma percent_encode_safe (c : ascii) :
  forallb uri_safe (list_ascii_of_string (percent_encode c)) = true.
Proof.
  destruct c as [[] [] [] [] [] [] [] []]; vm_compute; reflexivity.
Qed.

(** An escaped string holds only unreserved characters and percent
    signs. *)
Lemma percent_escape_safe (s : string) :
  forallb uri_safe (list_ascii_of_string (percent_escape s)) = true.
Proof.
  induction s as [|c s IH]; simpl; [reflexivity|].
  rewrite forallb_string_app, IH, andb_true_r.
  destruct (unreserved c) eqn:E.
  - simpl. unfold uri_safe. now rewrite E.
  - apply percent_encode_safe.
Qed.

Lemma percent_decode_encode (c : ascii) (t : string) :
  percent_decode (percent_encode c ++ t) =
  match percent_decode t with
  | Some t' => Some (String c t')
  | None => None
  end.
Proof.
  destruct c as [[] [] [] [] [] [] [] []]; reflexivity.
Qed.

(** Reading the escapes of an escaped string gives the string back. *)
Lemma percent_decode_escape (s : string) :
  percent_decode (percent_escape s) = Some s.
Proof.
  induction s as [|c s IH]; simpl; [reflexivity|].
  destruct (unreserved c) eqn:E.
  - simpl. destruct (Ascii.eqb_spec c "%") as [-> | _]; [discriminate|].
    now rewrite IH.
  - now rewrite percent_decode_encode, IH.
Qed.

(** The string form of an Error ends with its message. *)
Lemma error_toString_suffix (name message : string) :
  exists prefix, error_toString name message = prefix ++ message.
Proof.
  unfold error_toString.
  destruct (String.eqb name "").
  - exists "". reflexivity.
  - destruct (String.eqb_spec message "") as [->|_].
    + exists name. now rewrite append_nil_r.
    + exists (name ++ ": "). now rewrite append_assoc.
Qed.

(** ** Blocks of the route keep an invariant their calls keep *)

Section KeepsInvariant.

Variable W : Type.
Variable I : W -> Prop.

Lemma block_keeps_ret (A : Type) (a : A) : block_keeps I (ret W a).
Proof. intros w Hw. exact Hw. Qed.

Lemma block_keeps_throw (A : Type) (e : Thrown) :
  block_keeps I (@throw W A e).
Proof. intros w Hw. exact Hw. Qed.

Lemma block_keeps_redirect (A : Type) (target : JsVal) :
  block_keeps I (@redirect W A target).
Proof. intros w Hw. exact Hw. Qed.

Lemma block_keeps_logger_error (code : string) :
  block_keeps I (logger_error W code).
Proof. intros w Hw. exact Hw. Qed.

Lemma block_keeps_read_clock (imp : Imports W) :
  block_keeps I (read_clock W imp).
Proof. intros w Hw. exact Hw. Qed.

Lemma block_keeps_lift_res (A : Type) (r : Res A) :
  block_keeps I (lift_res W r).
Proof. destruct r; intros w Hw; exact Hw. Qed.

Lemma block_keeps_call (A : Type) (f : Effect W A) (ev : Res A -> Event) :
  keeps I f -> block_keeps I (call W f ev).
Proof.
  intros Hf w Hw. specialize (Hf w Hw). unfold call.
  destruct (f w) as [[a | e] w1]; exact Hf.
Qed.

Lemma block_keeps_bind (A B : Type) (m : M W A) (k : A -> M W B) :
  block_keeps I m -> (forall a, block_keeps I (k a)) ->
  block_keeps I (bind W m k).
Proof.
  intros Hm Hk w Hw. specialize (Hm w Hw). unfold bind.
  destruct (m w) as [[[a | e | out] w1] t1]; simpl in *; try exact Hm.
  specialize (Hk a w1 Hm).
  destruct (k a w1) as [[c w2] t2]. exact Hk.
Qed.

Lemma block_keeps_try_catch (A : Type) (m : M W A) (h : Thrown -> M W A) :
  block_keeps I m -> (forall e, block_keeps I (h e)) ->
  block_keeps I (try_catch W m h).
Proof.
  intros Hm Hh w Hw. specialize (Hm w Hw). unfold try_catch.
  destruct (m w) as [[[a | e | out] w1] t1]; simpl in *; try exact Hm.
  specialize (Hh e w1 Hm).
  destruct (h e w1) as [[c w2] t2]. exact Hh.
Qed.

Create HintDb keeps.

#[local] Hint Resolve block_keeps_ret block_keeps_throw block_keeps_redirect
  block_keeps_logger_error block_keeps_read_clock block_keeps_lift_res
  block_keeps_call : keeps.

Ltac keeps_block :=
  repeat first
    [ apply block_keeps_bind; [ | intros ? ]
    | apply block_keeps_try_catch; [ | intros ? ]
    | match goal with
      | |- block_keeps _ (if ?b then _ else _) => destruct b
      | |- block_keeps _ (match ?x with _ => _ end) => destruct x
      end
    | solve [ auto with keeps ] ].

Variable imp : Imports W.
Variable req : Request.
Variable o : Options W.
Hypothesis Hkeep : later_steps_keep I imp o.

Lemma check_signIn_keeps (u : User) (a : Account) (p : Payload) :
  block_keeps I (check_signIn W o u a p).
Proof.
  unfold check_signIn. keeps_block.
  apply block_keeps_call, Hkeep.
Qed.

Lemma set_jwt_cookie_keeps (u : User) (a : Account) (p : Payload) (n : bool) :
  block_keeps I (set_jwt_cookie W imp o u a p n).
Proof.
  unfold set_jwt_cookie. keeps_block; apply block_keeps_call, Hkeep.
Qed.

Lemma establish_session_keeps (m : Materialized) (a : Account) (p : Payload) :
  block_keeps I (establish_session W imp o m a p).
Proof.
  unfold establish_session.
  destruct (opt_session_jwt W o); [apply set_jwt_cookie_keeps|].
  destruct (m_session m); [apply block_keeps_call, Hkeep | auto with keeps].
Qed.

Lemma dispatchEvent_keeps (m : EventMessage) :
  block_keeps I (dispatchEvent W (events_signIn W (opt_events W o)) m).
Proof.
  unfold dispatchEvent. keeps_block. apply block_keeps_call, Hkeep.
Qed.

Lemma success_redirect_keeps (n : bool) :
  block_keeps I (success_redirect W o n).
Proof. unfold success_redirect. keeps_block. Qed.

Lemma email_sign_in_keeps (adapter : Adapter W) (w0 w1 : W)
    (ops : AdapterOps W) (provider : Provider W) (email : option string) :
  opt_adapter W o = Some adapter ->
  getAdapter adapter w0 = (Ok ops, w1) ->
  block_keeps I (email_sign_in W imp req o ops provider email).
Proof.
  intros Ha Hops. unfold email_sign_in.
  apply block_keeps_bind;
    [ apply block_keeps_call;
      exact (keeps_getUserByEmail W I imp o Hkeep adapter w0 ops w1 email
               Ha Hops)
    | intros found ].
  apply block_keeps_bind; [apply check_signIn_keeps | intros _].
  apply block_keeps_bind;
    [apply block_keeps_call, Hkeep | intros m].
  apply block_keeps_bind; [apply establish_session_keeps | intros _].
  apply block_keeps_bind; [apply dispatchEvent_keeps | intros _].
  apply success_redirect_keeps.
Qed.

Lemma email_catch_keeps (e : Thrown) : block_keeps I (email_catch W o e).
Proof. unfold email_catch. keeps_block. Qed.

End KeepsInvariant.

(** ** Properties *)

(** C8: in the email flow, when [getVerificationRequest] resolves to
    nothing the invocation ends with a redirect to the error page with
    code [Verification]; no session cookie is set, no sign-in event is
    dispatched and materialization is not invoked. *)
Theorem verification_miss_redirects
    (W : Type) (imp : Imports W) (req : Request) (o : Options W) (w : W) :
  verification_lookup (trace imp req o w) = Some (Ok None) ->
  outcome imp req o w = Redirect (error_page o "Verification")
  /\ existsb is_cookie_set (trace imp req o w) = false
  /\ existsb is_signin_event (trace imp req o w) = false
  /\ existsb is_materialization (trace imp req o w) = false.
Proof.
  intros H. unfold_observers. focus_run.
  walk; auto.
Qed.

(** C3: whatever the provider type, when the sign-in policy resolves to
    [false] the invocation ends with a redirect to the error page with
    code [AccessDenied], and no session artifact exists: no cookie is set,
    no JWT is encoded and materialization is not invoked. *)
Theorem signIn_false_access_denied
    (W : Type) (imp : Imports W) (req : Request) (o : Options W) (w : W) :
  signIn_result (trace imp req o w) = Some (Ok (JBool false)) ->
  outcome imp req o w = Redirect (error_page o "AccessDenied")
  /\ existsb is_cookie_set (trace imp req o w) = false
  /\ existsb is_jwt_encode (trace imp req o w) = false
  /\ existsb is_materialization (trace imp req o w) = false.
Proof.
  intros H. unfold_observers. focus_run.
  walk. all: auto.
Qed.

(** C4: a POST to a credentials provider while sessions are persisted
    ([session.jwt] off) ends with a redirect to the error page with code
    [Configuration]; the only call made is the log entry, so [authorize]
    is never invoked. *)
Theorem credentials_require_jwt_sessions
    (W : Type) (imp : Imports W) (req : Request) (o : Options W) (w : W)
    (provider : Provider W) :
  assoc (opt_provider W o) (opt_providers W o) = Some provider ->
  provider_type W provider = "credentials" ->
  req_method req = "POST" ->
  opt_session_jwt W o = false ->
  outcome imp req o w = Redirect (error_page o "Configuration")
  /\ trace imp req o w = [EvLoggerError "CALLBACK_CREDENTIALS_JWT_ERROR"]
  /\ existsb is_authorize (trace imp req o w) = false.
Proof.
  intros Hp Ht Hm Hj.
  unfold outcome, trace, callback, callback_body.
  rewrite Hp, Ht, Hm. simpl.
  unfold credentials_flow. rewrite Hj. simpl.
  repeat split.
Qed.

(** C9: a provider whose type is neither [oauth] nor [email], nor
    [credentials] on a POST request, gets a plain 500 response: no
    redirect, and no call to any collaborator (so no cookie is set). *)
Theorem unsupported_provider_rejected
    (W : Type) (imp : Imports W) (req : Request) (o : Options W) (w : W)
    (provider : Provider W) :
  assoc (opt_provider W o) (opt_providers W o) = Some provider ->
  provider_type W provider <> "oauth" ->
  provider_type W provider <> "email" ->
  ~ (provider_type W provider = "credentials" /\ req_method req = "POST") ->
  outcome imp req o w =
    Rejected 500
      ("Error: Callback for provider type " ++ provider_type W provider
         ++ " not supported")
  /\ (forall target, outcome imp req o w <> Redirect target)
  /\ existsb is_cookie_set (trace imp req o w) = false
  /\ trace imp req o w = [].
Proof.
  intros Hp Ho He Hc.
  unfold outcome, trace, callback, callback_body.
  rewrite Hp.
  destruct (String.eqb_spec (provider_type W provider) "oauth") as [E|_];
    [contradiction|].
  destruct (String.eqb_spec (provider_type W provider) "email") as [E|_];
    [contradiction|].
  destruct (String.eqb_spec (provider_type W provider) "credentials") as [E1|_];
    destruct (String.eqb_spec (req_method req) "POST") as [E2|_];
    try (exfalso; apply Hc; split; assumption);
    simpl; repeat split; intros; discriminate.
Qed.


(** C2: in each of the three flows, once the sign-in event has been
    dispatched for a user who is not new, and no new-user page is
    configured, the invocation ends with a redirect to [callbackUrl] when
    there is one (a non-empty string) and to [baseUrl] otherwise. *)
Theorem success_redirects_to_callbackUrl
    (W : Type) (imp : Imports W) (req : Request) (o : Options W) (w : W)
    (message : EventMessage) :
  signin_event (trace imp req o w) = Some message ->
  is_new_user message = false ->
  truthy (opt_pages_newUser W o) = false ->
  (forall url, opt_callbackUrl W o = Some url -> url <> "" ->
     outcome imp req o w = Redirect (JStr url))
  /\ (opt_callbackUrl W o = None \/ opt_callbackUrl W o = Some "" ->
      outcome imp req o w = Redirect (JStr (opt_baseUrl W o))).
Proof.
  intros Hev Hnew Hpage.
  assert (Hout : outcome imp req o w =
            Redirect (JStr (or_else (opt_callbackUrl W o) (opt_baseUrl W o)))).
  { unfold is_new_user in Hnew. unfold_observers. focus_run.
    rewrite Hpage in *.
    walk.
    all: try match goal with
             | H : _ && false = true |- _ =>
                 rewrite andb_false_r in H; discriminate
             end.
    all: auto. }
  rewrite Hout. unfold or_else. split.
  - intros url -> Hne. destruct (String.eqb_spec url ""); congruence.
  - intros [-> | ->]; reflexivity.
Qed.

(** C5, as the code has it: whatever the provider type, when the sign-in
    policy throws an Error whose string form is well-formed Unicode, the
    invocation ends with a redirect to the error page whose [error]
    parameter is the URL-encoded string form of the Error: it reads back
    as that string form, holds only unreserved characters and percent
    signs, and ends with the URL-encoded message.  When the policy throws
    anything that is not an Error, the invocation ends with a redirect
    whose target is the thrown value. *)
Theorem signIn_fault_redirect
    (W : Type) (imp : Imports W) (req : Request) (o : Options W) (w : W)
    (e : Thrown) :
  signIn_result (trace imp req o w) = Some (Err e) ->
  match e with
  | ThrownError name message =>
      well_formed_utf8 (error_toString name message) = true ->
      outcome imp req o w =
        Redirect (error_page o (percent_escape (error_toString name message)))
      /\ percent_decode (percent_escape (error_toString name message))
           = Some (error_toString name message)
      /\ forallb uri_safe
           (list_ascii_of_string
              (percent_escape (error_toString name message))) = true
      /\ exists prefix,
           percent_escape (error_toString name message) =
             prefix ++ percent_escape message
  | ThrownValue v => outcome imp req o w = Redirect v
  end.
Proof.
  intros H.
  destruct e as [name message | v].
  - intros Hwf.
    split; [|split; [apply percent_decode_escape
                    |split; [apply percent_escape_safe|]]].
    + unfold_observers. focus_run.
      walk. all: try congruence. all: auto.
    + destruct (error_toString_suffix name message) as [prefix ->].
      exists (percent_escape prefix). apply percent_escape_app.
  - unfold_observers. focus_run.
    walk. all: auto.
Qed.

(** C7: the terminal action does not depend on the sign-in listener: with
    any two listeners, one that fails and one that succeeds included, the
    invocation ends the same way. *)
Theorem listener_does_not_alter_outcome
    (W : Type) (imp : Imports W) (req : Request) (o : Options W) (w : W)
    (listener1 listener2 : Events W) :
  outcome imp req (with_events o listener1) w =
  outcome imp req (with_events o listener2) w.
Proof.
  unfold_route. unfold error_page, sessionToken.
  walk. all: auto.
Qed.

(** Only the email flow, with an adapter configured, looks a verification
    request up. *)
Lemma lookup_only_in_email_flow
    (W : Type) (imp : Imports W) (req : Request) (o : Options W) (w : W)
    (provider : Provider W) (r : Res (option VerificationRequest)) :
  assoc (opt_provider W o) (opt_providers W o) = Some provider ->
  verification_lookup (trace imp req o w) = Some r ->
  String.eqb (provider_type W provider) "oauth" = false
  /\ String.eqb (provider_type W provider) "email" = true
  /\ exists adapter, opt_adapter W o = Some adapter.
Proof.
  intros Hp H. unfold_observers. focus_run. rewrite Hp in *.
  walk. all: eauto.
Qed.

(** C1: in the email flow, when [getVerificationRequest] resolves to a
    verification request, the very next call is [deleteVerificationRequest]
    on the same email and token, before the user lookup, the sign-in
    policy, materialization and the session.  When that deletion resolves
    and consumes the pair (the lookup of a consumed pair finds nothing, and
    nothing the flow calls afterwards brings it back), the same request
    replayed in the world the invocation left behind ends with a redirect
    to the error page with code [Verification]. *)
Theorem verification_token_single_use
    (W : Type) (imp : Imports W) (req : Request) (o : Options W) (w : W)
    (provider : Provider W) (invite : VerificationRequest) :
  assoc (opt_provider W o) (opt_providers W o) = Some provider ->
  verification_lookup (trace imp req o w) = Some (Ok (Some invite)) ->
  let email := assoc "email" (req_query req) in
  let token := assoc "token" (req_query req) in
  (exists r rest,
     trace imp req o w =
       EvGetAdapter (Ok tt)
         :: EvGetVerificationRequest email token (Ok (Some invite))
         :: EvDeleteVerificationRequest email token r
         :: rest)
  /\ (forall consumed : W -> Prop,
        verification_deletion (trace imp req o w) = Some (Ok tt) ->
        deletion_establishes consumed o provider email token ->
        later_steps_keep consumed imp o ->
        lookup_misses consumed o provider email token ->
        consumed (final_world imp req o w)
        /\ outcome imp req o (final_world imp req o w) =
             Redirect (error_page o "Verification")).
Proof.
  intros Hp Hlookup email token.
  destruct (lookup_only_in_email_flow W imp req o w provider _ Hp Hlookup)
    as (Hoauth & Hemail & adapter & Hadapter).
  split.
  - clear adapter Hadapter. subst email token.
    unfold_observers. focus_run. rewrite Hp, Hoauth, Hemail in *.
    walk; eauto.
  - intros consumed Hdel Hest Hkeep Hmiss.
    assert (Hfinal : consumed (final_world imp req o w)).
    { unfold final_world, trace, callback, callback_body in *.
      rewrite Hp, Hoauth, Hemail in *.
      unfold verification_lookup, verification_deletion in *.
      unfold email_flow, try_catch, bind, call in *.
      rewrite Hadapter in *.
      destruct (getAdapter adapter w) as [[ops | e] w1] eqn:Eops;
        simpl in *; [ | exfalso; clear - Hlookup; unfold_route; walk ].
      fold email token in Hlookup, Hdel |- *.
      destruct (getVerificationRequest ops email token (opt_secret W o)
                  provider w1) as [[[found | ] | e] w2] eqn:Eget;
        simpl in *; try discriminate;
        [ | exfalso; clear - Hlookup; unfold_route; walk ].
      destruct (deleteVerificationRequest ops email token (opt_secret W o)
                  provider w2) as [[[] | e] w3] eqn:Edel;
        simpl in *; [ | exfalso; clear - Hdel; unfold_route; walk ].
      assert (H3 : consumed w3) by (eapply Hest; eauto).
      pose proof (email_sign_in_keeps W consumed imp req o Hkeep adapter w
                    w1 ops provider email Hadapter Eops w3 H3) as H4.
      destruct (email_sign_in W imp req o ops provider email w3)
        as [[[a | e | out] w4] t4]; simpl in *; try exact H4.
      pose proof (email_catch_keeps W consumed o e w4 H4) as H5.
      destruct (email_catch W o e w4) as [[[a | e' | out] w5] t5];
        simpl in *; exact H5. }
    split; [exact Hfinal|].
    destruct (Hmiss adapter _ Hadapter Hfinal) as (ops & w1 & w2 & E1 & E2).
    unfold outcome, callback, callback_body.
    rewrite Hp, Hoauth, Hemail.
    unfold email_flow, try_catch, bind, call.
    rewrite Hadapter, E1. fold email token. rewrite E2. reflexivity.
Qed.

(** How each flow maps an Error thrown by materialization, by its name. *)
Lemma materialization_fault_outcome
    (W : Type) (imp : Imports W) (req : Request) (o : Options W) (w : W)
    (provider : Provider W) (name message : string) :
  assoc (opt_provider W o) (opt_providers W o) = Some provider ->
  materialization_result (trace imp req o w)
    = Some (Err (ThrownError name message)) ->
  outcome imp req o w =
    Redirect
      (error_page o
         (if String.eqb (provider_type W provider) "oauth" then
            if String.eqb name "AccountNotLinkedError"
            then "OAuthAccountNotLinked"
            else if String.eqb name "CreateUserError"
                 then "OAuthCreateAccount"
                 else "Callback"
          else
            if String.eqb name "CreateUserError"
            then "EmailCreateAccount"
            else "Callback")).
Proof.
  intros Hp H. unfold_observers. focus_run. rewrite Hp in *.
  walk. all: auto.
Qed.

(** C6, as the code has it: an Error named [AccountNotLinkedError] thrown
    by materialization ends the oauth flow with code
    [OAuthAccountNotLinked] and the email flow with the generic code
    [Callback]; one named [CreateUserError] ends the oauth flow with
    [OAuthCreateAccount] and the email flow with [EmailCreateAccount]; in
    one deployment the two kinds never end with the same redirect. *)
Theorem materialization_failure_codes
    (W : Type) (imp : Imports W) (req : Request) (o : Options W) (w : W)
    (provider : Provider W) (name message : string) :
  assoc (opt_provider W o) (opt_providers W o) = Some provider ->
  materialization_result (trace imp req o w)
    = Some (Err (ThrownError name message)) ->
  (provider_type W provider = "oauth" -> name = "AccountNotLinkedError" ->
     outcome imp req o w = Redirect (error_page o "OAuthAccountNotLinked"))
  /\ (provider_type W provider = "oauth" -> name = "CreateUserError" ->
        outcome imp req o w = Redirect (error_page o "OAuthCreateAccount"))
  /\ (provider_type W provider = "email" -> name = "AccountNotLinkedError" ->
        outcome imp req o w = Redirect (error_page o "Callback"))
  /\ (provider_type W provider = "email" -> name = "CreateUserError" ->
        outcome imp req o w = Redirect (error_page o "EmailCreateAccount"))
  /\ (forall imp' req' w' message',
        name = "AccountNotLinkedError" ->
        materialization_result (trace imp' req' o w')
          = Some (Err (ThrownError "CreateUserError" message')) ->
        outcome imp req o w <> outcome imp' req' o w').
Proof.
  intros Hp H.
  pose proof (materialization_fault_outcome W imp req o w provider name
                message Hp H) as Hout.
  repeat split.
  - intros Ht ->. now rewrite Hout, Ht.
  - intros Ht ->. now rewrite Hout, Ht.
  - intros Ht ->. now rewrite Hout, Ht.
  - intros Ht ->. now rewrite Hout, Ht.
  - intros imp' req' w' message' -> H'.
    rewrite Hout.
    rewrite (materialization_fault_outcome W imp' req' o w' provider _ _ Hp H').
    simpl.
    destruct (String.eqb (provider_type W provider) "oauth");
      intros E; injection E as E; do 2 apply append_inv_head in E;
      discriminate.
Qed.

(** ** The properties at work on the small deployment *)

Lemma demo_delete_not_pending (email token : option string) (w : Demo.Store) :
  Demo.pending email token
    (filter (fun entry => negb (Demo.same_request email token entry)) w)
  = false.
Proof.
  unfold Demo.pending.
  induction w as [|entry w IH]; simpl; [reflexivity|].
  destruct (Demo.same_request email token entry) eqn:E; simpl.
  - exact IH.
  - now rewrite E.
Qed.

Lemma demo_deletion_establishes (name : string) (jwt : bool)
    (policy : Res JsVal) (listener : Res unit) :
  deletion_establishes Demo.consumed (Demo.options name jwt policy listener)
    Demo.email_provider (Some "alice@example.com") (Some "t0k3n").
Proof.
  intros adapter w ops w1 w2 w3 Ha Hops Hdel.
  simpl in Ha. injection Ha as <-.
  simpl in Hops. injection Hops as <- <-.
  simpl in Hdel. injection Hdel as <-.
  apply demo_delete_not_pending.
Qed.

Lemma demo_later_steps_keep (name : string) (jwt : bool)
    (policy : Res JsVal) (listener : Res unit) (m : Res Materialized) :
  later_steps_keep Demo.consumed (Demo.imports m)
    (Demo.options name jwt policy listener).
Proof.
  constructor; try (intros; intros w Hw; exact Hw).
  intros adapter w ops w' email Ha Hops.
  simpl in Ha. injection Ha as <-.
  simpl in Hops. injection Hops as <- <-.
  intros w0 Hw0. exact Hw0.
Qed.

Lemma demo_lookup_misses (name : string) (jwt : bool)
    (policy : Res JsVal) (listener : Res unit) :
  lookup_misses Demo.consumed (Demo.options name jwt policy listener)
    Demo.email_provider (Some "alice@example.com") (Some "t0k3n").
Proof.
  intros adapter w Ha Hw.
  simpl in Ha. injection Ha as <-.
  exists Demo.ops, w, w. split; [reflexivity|].
  simpl. unfold Demo.consumed in Hw. now rewrite Hw.
Qed.

(** C1 on the deployment: the emailed link signs Alice in once; opened
    again in the world the first visit left, it is refused. *)
Lemma verification_token_single_use_witness :
  verification_lookup
    (trace (Demo.imports Demo.returning_user) Demo.get_request
       (Demo.options "email" true Demo.allow (Ok tt)) Demo.store)
  = Some (Ok (Some {| vr_identifier := "alice@example.com";
                      vr_token := "t0k3n"; vr_expires := 0 |}))
  /\ verification_deletion
       (trace (Demo.imports Demo.returning_user) Demo.get_request
          (Demo.options "email" true Demo.allow (Ok tt)) Demo.store)
     = Some (Ok tt)
  /\ outcome (Demo.imports Demo.returning_user) Demo.get_request
       (Demo.options "email" true Demo.allow (Ok tt)) Demo.store
     = Redirect (JStr "https://example.com/dashboard")
  /\ outcome (Demo.imports Demo.returning_user) Demo.get_request
       (Demo.options "email" true Demo.allow (Ok tt))
       (final_world (Demo.imports Demo.returning_user) Demo.get_request
          (Demo.options "email" true Demo.allow (Ok tt)) Demo.store)
     = Redirect (JStr "https://example.com/api/auth/error?error=Verification").
Proof.
  split; [reflexivity|]. split; [reflexivity|]. split; [reflexivity|].
  destruct (verification_token_single_use Demo.Store
              (Demo.imports Demo.returning_user) Demo.get_request
              (Demo.options "email" true Demo.allow (Ok tt)) Demo.store
              Demo.email_provider _ eq_refl eq_refl) as [_ Hreplay].
  apply (Hreplay Demo.consumed).
  - reflexivity.
  - apply demo_deletion_establishes.
  - apply demo_later_steps_keep.
  - apply demo_lookup_misses.
Defined.

(** C8 on the deployment: no request is pending. *)
Lemma verification_miss_redirects_witness :
  verification_lookup
    (trace (Demo.imports Demo.returning_user) Demo.get_request
       (Demo.options "email" true Demo.allow (Ok tt)) [])
  = Some (Ok None)
  /\ outcome (Demo.imports Demo.returning_user) Demo.get_request
       (Demo.options "email" true Demo.allow (Ok tt)) []
     = Redirect (JStr "https://example.com/api/auth/error?error=Verification")
  /\ existsb is_cookie_set
       (trace (Demo.imports Demo.returning_user) Demo.get_request
          (Demo.options "email" true Demo.allow (Ok tt)) [])
     = false.
Proof.
  split; [reflexivity|].
  destruct (verification_miss_redirects Demo.Store
              (Demo.imports Demo.returning_user) Demo.get_request
              (Demo.options "email" true Demo.allow (Ok tt)) [] eq_refl)
    as (Hout & Hcookie & _).
  split; [exact Hout | exact Hcookie].
Defined.

(** C2 on the deployment, once per provider type: a returning user lands
    on the callback URL. *)
Lemma success_redirects_to_callbackUrl_witness :
  outcome (Demo.imports Demo.returning_user) Demo.get_request
    (Demo.options "github" false Demo.allow (Ok tt)) []
  = Redirect (JStr "https://example.com/dashboard")
  /\ outcome (Demo.imports Demo.returning_user) Demo.get_request
       (Demo.options "email" true Demo.allow (Ok tt)) Demo.store
     = Redirect (JStr "https://example.com/dashboard")
  /\ outcome (Demo.imports Demo.returning_user) Demo.post_request
       (Demo.options "credentials" true Demo.allow (Ok tt)) []
     = Redirect (JStr "https://example.com/dashboard").
Proof.
  split; [|split].
  - edestruct (success_redirects_to_callbackUrl Demo.Store
                 (Demo.imports Demo.returning_user) Demo.get_request
                 (Demo.options "github" false Demo.allow (Ok tt)) [])
      as [H _]; [reflexivity | reflexivity | reflexivity | ].
    apply H; [reflexivity | discriminate].
  - edestruct (success_redirects_to_callbackUrl Demo.Store
                 (Demo.imports Demo.returning_user) Demo.get_request
                 (Demo.options "email" true Demo.allow (Ok tt)) Demo.store)
      as [H _]; [reflexivity | reflexivity | reflexivity | ].
    apply H; [reflexivity | discriminate].
  - edestruct (success_redirects_to_callbackUrl Demo.Store
                 (Demo.imports Demo.returning_user) Demo.post_request
                 (Demo.options "credentials" true Demo.allow (Ok tt)) [])
      as [H _]; [reflexivity | reflexivity | reflexivity | ].
    apply H; [reflexivity | discriminate].
Defined.

(** C3 on the deployment, once per provider type: the policy says no. *)
Lemma signIn_false_access_denied_witness :
  outcome (Demo.imports Demo.returning_user) Demo.get_request
    (Demo.options "github" true (Ok (JBool false)) (Ok tt)) []
  = Redirect (JStr "https://example.com/api/auth/error?error=AccessDenied")
  /\ outcome (Demo.imports Demo.returning_user) Demo.get_request
       (Demo.options "email" true (Ok (JBool false)) (Ok tt)) Demo.store
     = Redirect (JStr "https://example.com/api/auth/error?error=AccessDenied")
  /\ outcome (Demo.imports Demo.returning_user) Demo.post_request
       (Demo.options "credentials" true (Ok (JBool false)) (Ok tt)) []
     = Redirect (JStr "https://example.com/api/auth/error?error=AccessDenied").
Proof.
  split; [|split].
  - exact (proj1 (signIn_false_access_denied Demo.Store
                    (Demo.imports Demo.returning_user) Demo.get_request
                    (Demo.options "github" true (Ok (JBool false)) (Ok tt))
                    [] eq_refl)).
  - exact (proj1 (signIn_false_access_denied Demo.Store
                    (Demo.imports Demo.returning_user) Demo.get_request
                    (Demo.options "email" true (Ok (JBool false)) (Ok tt))
                    Demo.store eq_refl)).
  - exact (proj1 (signIn_false_access_denied Demo.Store
                    (Demo.imports Demo.returning_user) Demo.post_request
                    (Demo.options "credentials" true (Ok (JBool false))
                       (Ok tt))
                    [] eq_refl)).
Defined.

(** C4 on the deployment: credentials with persisted sessions. *)
Lemma credentials_require_jwt_sessions_witness :
  outcome (Demo.imports Demo.returning_user) Demo.post_request
    (Demo.options "credentials" false Demo.allow (Ok tt)) []
  = Redirect (JStr "https://example.com/api/auth/error?error=Configuration")
  /\ existsb is_authorize
       (trace (Demo.imports Demo.returning_user) Demo.post_request
          (Demo.options "credentials" false Demo.allow (Ok tt)) [])
     = false.
Proof.
  destruct (credentials_require_jwt_sessions Demo.Store
              (Demo.imports Demo.returning_user) Demo.post_request
              (Demo.options "credentials" false Demo.allow (Ok tt)) []
              _ eq_refl eq_refl eq_refl eq_refl)
    as (Hout & _ & Hauth).
  split; [exact Hout | exact Hauth].
Defined.

(** C5 as stated fails for an Error whose message holds a surrogate
    without its pair: [encodeURIComponent] throws a URIError.  In the
    credentials flow nothing catches it and no redirect is sent; in the
    oauth flow the outer catch clause turns it into the code [Callback]. *)
Lemma signIn_fault_lone_surrogate_counterexample :
  signIn_result
    (trace (Demo.imports Demo.returning_user) Demo.post_request
       (Demo.options "credentials" true
          (Err (ThrownError "Error" lone_surrogate)) (Ok tt)) [])
  = Some (Err (ThrownError "Error" lone_surrogate))
  /\ outcome (Demo.imports Demo.returning_user) Demo.post_request
       (Demo.options "credentials" true
          (Err (ThrownError "Error" lone_surrogate)) (Ok tt)) []
     = Unhandled uri_error
  /\ (forall target,
        outcome (Demo.imports Demo.returning_user) Demo.post_request
          (Demo.options "credentials" true
             (Err (ThrownError "Error" lone_surrogate)) (Ok tt)) []
        <> Redirect target)
  /\ outcome (Demo.imports Demo.returning_user) Demo.get_request
       (Demo.options "github" true
          (Err (ThrownError "Error" lone_surrogate)) (Ok tt)) []
     = Redirect (JStr "https://example.com/api/auth/error?error=Callback").
Proof.
  split; [reflexivity|]. split; [reflexivity|].
  split; [|reflexivity].
  intros target. vm_compute. discriminate.
Qed.

(** C5 on the deployment: the policy throws an Error in the oauth flow and
    a URL in the credentials flow. *)
Lemma signIn_fault_redirect_witness :
  outcome (Demo.imports Demo.returning_user) Demo.get_request
    (Demo.options "github" true (Err (ThrownError "Error" "not you"))
       (Ok tt)) []
  = Redirect
      (JStr "https://example.com/api/auth/error?error=Error%3A%20not%20you")
  /\ outcome (Demo.imports Demo.returning_user) Demo.post_request
       (Demo.options "credentials" true
          (Err (ThrownValue (JStr "/unauthorized"))) (Ok tt)) []
     = Redirect (JStr "/unauthorized").
Proof.
  split.
  - exact (proj1 (signIn_fault_redirect Demo.Store
                    (Demo.imports Demo.returning_user) Demo.get_request
                    (Demo.options "github" true
                       (Err (ThrownError "Error" "not you")) (Ok tt))
                    [] (ThrownError "Error" "not you") eq_refl eq_refl)).
  - exact (signIn_fault_redirect Demo.Store
             (Demo.imports Demo.returning_user) Demo.post_request
             (Demo.options "credentials" true
                (Err (ThrownValue (JStr "/unauthorized"))) (Ok tt))
             [] (ThrownValue (JStr "/unauthorized")) eq_refl).
Defined.

(** C6 as stated fails in the email flow: an [AccountNotLinkedError] from
    materialization ends with the generic code [Callback], not with
    [OAuthAccountNotLinked]. *)
Lemma email_account_not_linked_counterexample :
  materialization_result
    (trace (Demo.imports (Err (ThrownError "AccountNotLinkedError" "")))
       Demo.get_request (Demo.options "email" true Demo.allow (Ok tt))
       Demo.store)
  = Some (Err (ThrownError "AccountNotLinkedError" ""))
  /\ outcome (Demo.imports (Err (ThrownError "AccountNotLinkedError" "")))
       Demo.get_request (Demo.options "email" true Demo.allow (Ok tt))
       Demo.store
     = Redirect (JStr "https://example.com/api/auth/error?error=Callback")
  /\ outcome (Demo.imports (Err (ThrownError "AccountNotLinkedError" "")))
       Demo.get_request (Demo.options "email" true Demo.allow (Ok tt))
       Demo.store
     <> Redirect
          (error_page (Demo.options "email" true Demo.allow (Ok tt))
             "OAuthAccountNotLinked").
Proof.
  split; [reflexivity|]. split; [reflexivity|].
  vm_compute. discriminate.
Qed.

(** C6 on the deployment: both kinds of failure in the oauth flow. *)
Lemma materialization_failure_codes_witness :
  outcome (Demo.imports (Err (ThrownError "AccountNotLinkedError" "")))
    Demo.get_request (Demo.options "github" true Demo.allow (Ok tt)) []
  = Redirect
      (JStr "https://example.com/api/auth/error?error=OAuthAccountNotLinked")
  /\ outcome (Demo.imports (Err (ThrownError "CreateUserError" "")))
       Demo.get_request (Demo.options "email" true Demo.allow (Ok tt))
       Demo.store
     = Redirect
         (JStr "https://example.com/api/auth/error?error=EmailCreateAccount")
  /\ outcome (Demo.imports (Err (ThrownError "AccountNotLinkedError" "")))
       Demo.get_request (Demo.options "github" true Demo.allow (Ok tt)) []
     <> outcome (Demo.imports (Err (ThrownError "CreateUserError" "")))
          Demo.get_request (Demo.options "github" true Demo.allow (Ok tt)) [].
Proof.
  split; [|split].
  - destruct (materialization_failure_codes Demo.Store
                (Demo.imports (Err (ThrownError "AccountNotLinkedError" "")))
                Demo.get_request
                (Demo.options "github" true Demo.allow (Ok tt)) []
                _ "AccountNotLinkedError" "" eq_refl eq_refl)
      as (H & _).
    exact (H eq_refl eq_refl).
  - destruct (materialization_failure_codes Demo.Store
                (Demo.imports (Err (ThrownError "CreateUserError" "")))
                Demo.get_request
                (Demo.options "email" true Demo.allow (Ok tt)) Demo.store
                _ "CreateUserError" "" eq_refl eq_refl)
      as (_ & _ & _ & H & _).
    exact (H eq_refl eq_refl).
  - destruct (materialization_failure_codes Demo.Store
                (Demo.imports (Err (ThrownError "AccountNotLinkedError" "")))
                Demo.get_request
                (Demo.options "github" true Demo.allow (Ok tt)) []
                _ "AccountNotLinkedError" "" eq_refl eq_refl)
      as (_ & _ & _ & _ & H).
    exact (H (Demo.imports (Err (ThrownError "CreateUserError" "")))
             Demo.get_request [] "" eq_refl eq_refl).
Defined.

(** C9 on the deployment: a provider of an unknown type, and a GET to the
    credentials provider. *)
Lemma unsupported_provider_rejected_witness :
  outcome (Demo.imports Demo.returning_user) Demo.get_request
    (Demo.options "saml" true Demo.allow (Ok tt)) []
  = Rejected 500 "Error: Callback for provider type saml not supported"
  /\ outcome (Demo.imports Demo.returning_user) Demo.get_request
       (Demo.options "credentials" true Demo.allow (Ok tt)) []
     = Rejected 500
         "Error: Callback for provider type credentials not supported".
Proof.
  split.
  - refine (proj1 (unsupported_provider_rejected Demo.Store
                     (Demo.imports Demo.returning_user) Demo.get_request
                     (Demo.options "saml" true Demo.allow (Ok tt)) []
                     _ eq_refl _ _ _)); simpl.
    + discriminate.
    + discriminate.
    + intros [H _]. discriminate.
  - refine (proj1 (unsupported_provider_rejected Demo.Store
                     (Demo.imports Demo.returning_user) Demo.get_request
                     (Demo.options "credentials" true Demo.allow (Ok tt)) []
                     _ eq_refl _ _ _)); simpl.
    + discriminate.
    + discriminate.
    + intros [_ H]. discriminate.
Defined.


(** ** Further properties of the callback route *)

(** X1: when the OAuth exchange hands over a truthy error the invocation
    ends with a redirect to the error page with code [oAuthCallback],
    whatever else the exchange handed over; the policy is not consulted,
    the adapter is not called and no cookie is set.  A falsy value
    ([undefined], [null], [false], [0], the empty string) is not taken
    for an error. *)
Theorem oauth_exchange_error
    (W : Type) (imp : Imports W) (req : Request) (o : Options W) (w : W)
    (resp : OAuthResponse) (e : Thrown) :
  exchange_result (trace imp req o w) = Some (Ok resp) ->
  oa_error resp = Some e ->
  thrown_truthy e = true ->
  outcome imp req o w = Redirect (error_page o "oAuthCallback")
  /\ existsb is_signIn_call (trace imp req o w) = false
  /\ existsb is_adapter_call (trace imp req o w) = false
  /\ existsb is_cookie_set (trace imp req o w) = false.
Proof.
  intros H He Ht.
  assert (Hrep : error_reported resp = true).
  { unfold error_reported. now rewrite He. }
  unfold exchange_result in H. focus_run.
  walk.
  all: try congruence.
  all: auto.
Qed.

(** X2: when the exchange reports no error and no profile the invocation
    ends with a redirect to the sign-in page, not to the error page; the
    policy is not consulted, the adapter is not called and no cookie is
    set. *)
Theorem oauth_no_profile
    (W : Type) (imp : Imports W) (req : Request) (o : Options W) (w : W)
    (resp : OAuthResponse) :
  exchange_result (trace imp req o w) = Some (Ok resp) ->
  oa_error resp = None ->
  oa_profile resp = None ->
  outcome imp req o w =
    Redirect (JStr (opt_baseUrl W o ++ opt_basePath W o ++ "/signin"))
  /\ existsb is_signIn_call (trace imp req o w) = false
  /\ existsb is_adapter_call (trace imp req o w) = false
  /\ existsb is_cookie_set (trace imp req o w) = false.
Proof.
  intros H He Hp.
  assert (Hrep : error_reported resp = false).
  { unfold error_reported. now rewrite He. }
  unfold exchange_result in H. focus_run.
  walk.
  all: try congruence.
  all: auto.
Qed.

(** X3: when the exchange throws before it returns, whatever it throws,
    the fault is logged and the invocation ends with a redirect to the
    error page with code [Callback]; nothing else is called. *)
Theorem oauth_exchange_throws
    (W : Type) (imp : Imports W) (req : Request) (o : Options W) (w : W)
    (e : Thrown) :
  exchange_result (trace imp req o w) = Some (Err e) ->
  outcome imp req o w = Redirect (error_page o "Callback")
  /\ trace imp req o w =
       [EvOAuthCallback (Err e); EvLoggerError "OAUTH_CALLBACK_ERROR"].
Proof.
  intros H. unfold exchange_result in H. focus_run.
  walk. all: auto.
Qed.



(** X4: the email flow of a deployment without an adapter ends at once
    with a redirect to the error page with code [Configuration]; the only
    call made is the log entry. *)
Theorem email_requires_adapter
    (W : Type) (imp : Imports W) (req : Request) (o : Options W) (w : W)
    (provider : Provider W) :
  assoc (opt_provider W o) (opt_providers W o) = Some provider ->
  provider_type W provider = "email" ->
  opt_adapter W o = None ->
  outcome imp req o w = Redirect (error_page o "Configuration")
  /\ trace imp req o w = [EvLoggerError "EMAIL_REQUIRES_ADAPTER_ERROR"].
Proof.
  intros Hp Ht Ha.
  unfold outcome, trace, callback, callback_body.
  rewrite Hp, Ht. simpl.
  unfold email_flow, try_catch. rewrite Ha. simpl. split; reflexivity.
Qed.

(** X5: a POST to a credentials provider that defines no [authorize]
    handler, with stateless sessions, ends with a redirect to the error
    page with code [Configuration]; the only call made is the log entry. *)
Theorem credentials_require_authorize
    (W : Type) (imp : Imports W) (req : Request) (o : Options W) (w : W)
    (provider : Provider W) :
  assoc (opt_provider W o) (opt_providers W o) = Some provider ->
  provider_type W provider = "credentials" ->
  req_method req = "POST" ->
  opt_session_jwt W o = true ->
  provider_authorize W provider = None ->
  outcome imp req o w = Redirect (error_page o "Configuration")
  /\ trace imp req o w = [EvLoggerError "CALLBACK_CREDENTIALS_HANDLER_ERROR"].
Proof.
  intros Hp Ht Hm Hj Ha.
  unfold outcome, trace, callback, callback_body.
  rewrite Hp, Ht, Hm. simpl.
  unfold credentials_flow. rewrite Hj, Ha. simpl. split; reflexivity.
Qed.

(** X6: when [authorize] resolves to a falsy value the policy is not
    consulted, no cookie is set and no sign-in event is dispatched; the
    invocation ends with a redirect to the error page with code
    [CredentialsSignin] and, as [provider] parameter, the URL-encoded
    provider id.  (For an id that is not well-formed Unicode
    [encodeURIComponent] throws inside the try block, and the catch clause
    redirects with the URIError as code.) *)
Theorem credentials_rejected
    (W : Type) (imp : Imports W) (req : Request) (o : Options W) (w : W)
    (provider : Provider W) :
  assoc (opt_provider W o) (opt_providers W o) = Some provider ->
  authorize_result (trace imp req o w) = Some (Ok None) ->
  (well_formed_utf8 (provider_id W provider) = true ->
   outcome imp req o w =
     Redirect
       (error_page o
          ("CredentialsSignin&provider="
             ++ percent_escape (provider_id W provider))))
  /\ (well_formed_utf8 (provider_id W provider) = false ->
      outcome imp req o w =
        Redirect (error_page o "URIError%3A%20URI%20malformed"))
  /\ existsb is_signIn_call (trace imp req o w) = false
  /\ existsb is_cookie_set (trace imp req o w) = false
  /\ existsb is_signin_event (trace imp req o w) = false.
Proof.
  intros Hp H. unfold authorize_result in H. focus_run. rewrite Hp in *.
  walk.
  all: repeat split; auto; intros; congruence.
Qed.

(** X7: when [authorize] throws, an Error whose string form is
    well-formed Unicode is surfaced in the [error] parameter as its
    URL-encoded string form, and any value that is not an Error is taken
    as the redirect target, as for the sign-in policy.  For an Error with
    a surrogate without its pair [encodeURIComponent] throws inside the
    catch clause and the URIError escapes the handler: no redirect is
    sent.  In no case is the policy consulted or a cookie set. *)
Theorem authorize_fault_redirect
    (W : Type) (imp : Imports W) (req : Request) (o : Options W) (w : W)
    (e : Thrown) :
  authorize_result (trace imp req o w) = Some (Err e) ->
  outcome imp req o w =
    match e with
    | ThrownError name message =>
        if well_formed_utf8 (error_toString name message) then
          Redirect
            (error_page o (percent_escape (error_toString name message)))
        else Unhandled uri_error
    | ThrownValue v => Redirect v
    end
  /\ existsb is_signIn_call (trace imp req o w) = false
  /\ existsb is_cookie_set (trace imp req o w) = false.
Proof.
  intros H. unfold authorize_result in H. focus_run.
  walk.
  all: repeat match goal with
              | Hb : well_formed_utf8 _ = _ |- _ => rewrite Hb
              end.
  all: auto.
Qed.

(** X8: once the sign-in event has been dispatched for a new user and a
    new-user page is configured, the invocation ends with a redirect to
    that page, whatever the callback URL. *)
Theorem new_user_landing_page
    (W : Type) (imp : Imports W) (req : Request) (o : Options W) (w : W)
    (message : EventMessage) (page : string) :
  signin_event (trace imp req o w) = Some message ->
  msg_isNewUser message = Some true ->
  opt_pages_newUser W o = Some page ->
  page <> "" ->
  outcome imp req o w = Redirect (JStr page).
Proof.
  intros Hev Hnew Hpage Hne.
  unfold signin_event in Hev. focus_run. unfold truthy in *.
  rewrite Hpage in *.
  destruct (String.eqb_spec page "") as [|_]; [contradiction|].
  walk. 
  all: try (rewrite andb_true_r in *; congruence).
  all: auto.
Qed.


(** X9: in every flow the sign-in event is dispatched only after
    [cookie.set] has resolved. *)
Theorem session_committed_before_dispatch
    (W : Type) (imp : Imports W) (req : Request) (o : Options W) (w : W) :
  preceded_by cookie_resolved is_signin_event false (trace imp req o w) = true.
Proof.
  focus_run. walk. all: auto.
Qed.

(** X10: one invocation consults the sign-in policy, materializes, sets
    the cookie and dispatches the sign-in event at most once each. *)
Theorem at_most_one_of_each
    (W : Type) (imp : Imports W) (req : Request) (o : Options W) (w : W) :
  (count is_signIn_call (trace imp req o w) <= 1)%nat
  /\ (count is_materialization (trace imp req o w) <= 1)%nat
  /\ (count is_cookie_set (trace imp req o w) <= 1)%nat
  /\ (count is_signin_event (trace imp req o w) <= 1)%nat.
Proof.
  unfold count. focus_run. walk. all: repeat split; auto.
Qed.

(** X11: no step that establishes the session (materialization,
    [jwt.encode], [cookie.set], the sign-in event) happens before the
    sign-in policy has resolved to something other than [false]. *)
Theorem no_session_without_policy
    (W : Type) (imp : Imports W) (req : Request) (o : Options W) (w : W) :
  preceded_by policy_allowed is_materialization false (trace imp req o w) = true
  /\ preceded_by policy_allowed is_jwt_encode false (trace imp req o w) = true
  /\ preceded_by policy_allowed is_cookie_set false (trace imp req o w) = true
  /\ preceded_by policy_allowed is_signin_event false (trace imp req o w) = true.
Proof.
  focus_run. walk.
  all: repeat match goal with H : is_false _ = false |- _ => rewrite H end.
  all: simpl; auto.
Qed.


(** X12: with stateless sessions the cookie that is set carries exactly
    the string [jwt.encode] resolved to.  Its options are the configured
    ones spread over an expiry computed from the reading of the clock the
    invocation took, [maxAge] seconds later and within the range of Date:
    that is the cookie's expiry unless the configured options carry an
    [expires] of their own. *)
Theorem jwt_cookie_carries_encoded_token
    (W : Type) (imp : Imports W) (req : Request) (o : Options W) (w : W)
    (value : string) (options : CookieOptions) :
  opt_session_jwt W o = true ->
  cookie_written (trace imp req o w) = Some (value, options) ->
  jwt_encode_result (trace imp req o w) = Some (Ok value)
  /\ exists now,
       clock_reading (trace imp req o w) = Some now
       /\ (Z.abs (now + opt_session_maxAge W o * 1000)
             <= 8640000000000000)%Z
       /\ options =
            spread_options
              (ExpiresAt (now + opt_session_maxAge W o * 1000))
              (opt_cookies_sessionToken_options W o)
       /\ cookie_expires options =
            match assoc "expires" (opt_cookies_sessionToken_options W o) with
            | Some v => ExpiresConfigured v
            | None => ExpiresAt (now + opt_session_maxAge W o * 1000)
            end.
Proof.
  intros Hj H. unfold cookie_written, jwt_encode_result, clock_reading in *.
  focus_run. rewrite Hj in *.
  walk.
  all: split; [reflexivity|]; eexists; split; [reflexivity|].
  all: split; [now apply Z.leb_le|]; (split; [reflexivity|]).
  all: unfold spread_options; simpl;
    repeat match goal with
           | Ha : assoc "expires" _ = _ |- _ => rewrite Ha
           end;
    reflexivity.
Qed.

(** X13: with persisted sessions neither [callbacks.jwt] nor
    [jwt.encode] is ever called, and the cookie that is set carries the
    token of the session record materialization resolved to; its options
    are the configured ones spread over the record's expiry (or [null]
    when that is empty), so the record's expiry is the cookie's unless the
    configured options carry an [expires] of their own. *)
Theorem persisted_session_cookie
    (W : Type) (imp : Imports W) (req : Request) (o : Options W) (w : W) :
  opt_session_jwt W o = false ->
  existsb is_jwt_call (trace imp req o w) = false
  /\ existsb is_jwt_encode (trace imp req o w) = false
  /\ forall value options,
       cookie_written (trace imp req o w) = Some (value, options) ->
       exists m session,
         materialization_result (trace imp req o w) = Some (Ok m)
         /\ m_session m = Some session
         /\ value = session_sessionToken session
         /\ options =
              spread_options
                (ExpiresStored
                   (if truthy (session_expires session)
                    then session_expires session else None))
                (opt_cookies_sessionToken_options W o)
         /\ cookie_expires options =
              match assoc "expires" (opt_cookies_sessionToken_options W o)
              with
              | Some v => ExpiresConfigured v
              | None =>
                  ExpiresStored
                    (if truthy (session_expires session)
                     then session_expires session else None)
              end.
Proof.
  intros Hj. unfold cookie_written, materialization_result.
  focus_run. rewrite Hj in *.
  walk.
  all: repeat split; auto; intros value options H; try discriminate.
  all: injection H as <- <-; do 2 eexists; split; [reflexivity|];
    split; [eassumption|]; split; [reflexivity|];
    match goal with Ht : truthy _ = _ |- _ => rewrite Ht end;
    (split; [reflexivity|]); unfold spread_options; simpl;
    repeat match goal with
           | Ha : assoc "expires" _ = _ |- _ => rewrite Ha
           end;
    reflexivity.
Qed.

(** X14: with persisted sessions, when materialization resolves without
    a session record the read of [session.sessionToken] throws, and the
    invocation ends with a redirect to the error page with code
    [Callback]; no cookie is set and no sign-in event is dispatched. *)
Theorem missing_session_record
    (W : Type) (imp : Imports W) (req : Request) (o : Options W) (w : W)
    (m : Materialized) :
  opt_session_jwt W o = false ->
  materialization_result (trace imp req o w) = Some (Ok m) ->
  m_session m = None ->
  outcome imp req o w = Redirect (error_page o "Callback")
  /\ existsb is_cookie_set (trace imp req o w) = false
  /\ existsb is_signin_event (trace imp req o w) = false.
Proof.
  intros Hj H Hs. unfold materialization_result in H.
  focus_run. rewrite Hj in *.
  walk.
  all: try congruence.
  all: auto.
Qed.

(** X15: in the oauth flow the sign-in policy is asked about the user the
    adapter has stored for the provider account, when there is one, and
    about the provider's profile otherwise (no adapter, lookup empty);
    materialization is always given the provider's profile and account. *)
Theorem oauth_subjects
    (W : Type) (imp : Imports W) (req : Request) (o : Options W) (w : W)
    (resp : OAuthResponse) (u : User) :
  exchange_result (trace imp req o w) = Some (Ok resp) ->
  signIn_subject (trace imp req o w) = Some u ->
  exists profile,
    oa_profile resp = Some profile
    /\ u = match stored_user_lookup (trace imp req o w) with
           | Some (Ok (Some stored)) => stored
           | _ => profile
           end
    /\ forall p a,
         materialization_input (trace imp req o w) = Some (p, a) ->
         p = profile /\ a = oa_account resp.
Proof.
  intros H Hu.
  unfold exchange_result, signIn_subject, stored_user_lookup,
    materialization_input in *.
  focus_run.
  walk.
  all: eexists; split; [eassumption|]; split; [reflexivity|].
  all: intros ? ? Hm; try discriminate; injection Hm as <- <-; auto.
Qed.


(** [error.name] throws only on [null] and [undefined]. *)
Lemma error_name_fails (e e0 : Thrown) :
  error_name e = Err e0 ->
  e = ThrownValue JNull \/ e = ThrownValue JUndefined.
Proof.
  destruct e as [n m | []]; simpl; intros H; try discriminate; auto.
Qed.

Ltac nullish_contradiction :=
  match goal with
  | Hn : error_name ?e = Err _ |- _ =>
      destruct (error_name_fails _ _ Hn) as [-> | ->];
      simpl in *; discriminate
  end.

(** X16: in the oauth and email flows every fault of a call ends in a
    redirect, unless some call rejected with [null] or [undefined] (the
    catch clause then fails on [error.name]). *)
Theorem faults_end_in_redirect
    (W : Type) (imp : Imports W) (req : Request) (o : Options W) (w : W)
    (provider : Provider W) :
  assoc (opt_provider W o) (opt_providers W o) = Some provider ->
  provider_type W provider = "oauth" \/ provider_type W provider = "email" ->
  existsb nullish_fault (trace imp req o w) = false ->
  exists target, outcome imp req o w = Redirect target.
Proof.
  intros Hp Ht H.
  assert (Hty : String.eqb (provider_type W provider) "oauth" = true
                \/ (String.eqb (provider_type W provider) "oauth" = false
                    /\ String.eqb (provider_type W provider) "email" = true)).
  { destruct Ht as [-> | ->]; [left | right]; auto. }
  clear Ht. focus_run. rewrite Hp in *.
  destruct Hty as [E | [E1 E2]]; [rewrite E in * | rewrite E1, E2 in *].
  - walk. all: try nullish_contradiction. all: eauto.
  - walk. all: try nullish_contradiction. all: eauto.
Qed.

(** X17: the credentials flow has no catch clause around the session
    steps: a fault of [callbacks.jwt], [jwt.encode] or [cookie.set] leaves
    the invocation unhandled, without a redirect and without a sign-in
    event. *)
Theorem credentials_session_fault_escapes
    (W : Type) (imp : Imports W) (req : Request) (o : Options W) (w : W)
    (provider : Provider W) (e : Thrown) :
  assoc (opt_provider W o) (opt_providers W o) = Some provider ->
  provider_type W provider = "credentials" ->
  session_fault (trace imp req o w) = Some e ->
  outcome imp req o w = Unhandled e
  /\ existsb is_signin_event (trace imp req o w) = false.
Proof.
  intros Hp Ht H. unfold session_fault in H.
  focus_run. rewrite Hp, Ht in *. simpl in *.
  walk. all: auto.
Qed.

(** X19: with the default listeners the route never logs [EVENT_ERROR]
    and no dispatched sign-in event fails. *)
Theorem default_listener_never_fails
    (W : Type) (imp : Imports W) (req : Request) (o : Options W) (w : W) :
  opt_events W o = default_events W ->
  existsb is_event_error_log (trace imp req o w) = false
  /\ forallb (fun ev => match ev with
                        | EvSignInEvent _ (Err _) => false
                        | _ => true
                        end) (trace imp req o w) = true.
Proof.
  intros He. focus_run. rewrite He in *. unfold default_events in *.
  walk. all: auto.
Qed.


(** X18: when the sign-in policy or [authorize] throws an Error, a
    redirect, if one is sent, goes to the error page address followed by a
    code made only of unreserved characters and percent signs: the message
    cannot add a query parameter or a fragment to the address.  No
    redirect is sent only when [encodeURIComponent] throws its URIError
    outside a try block. *)
Theorem fault_code_is_url_safe
    (W : Type) (imp : Imports W) (req : Request) (o : Options W) (w : W)
    (name message : string) :
  signIn_result (trace imp req o w) = Some (Err (ThrownError name message))
  \/ authorize_result (trace imp req o w)
       = Some (Err (ThrownError name message)) ->
  (exists code,
     outcome imp req o w = Redirect (error_page o code)
     /\ forallb uri_safe (list_ascii_of_string code) = true)
  \/ outcome imp req o w = Unhandled uri_error.
Proof.
  intros H.
  unfold signIn_result, authorize_result in H. focus_run.
  destruct H as [H | H]; walk.
  all: try (right; reflexivity).
  all: left; eexists; (split; [reflexivity|]).
  all: try apply percent_escape_safe.
  all: reflexivity.
Qed.


(** ** Facts about the sign-in page *)

Lemma forallb_flat_map (A B : Type) (p : B -> bool) (f : A -> list B)
    (l : list A) :
  forallb p (flat_map f l) = forallb (fun x => forallb p (f x)) l.
Proof.
  induction l as [|x l IH]; simpl; [reflexivity|].
  now rewrite forallb_app, IH.
Qed.

Lemma credential_inputs_hold_no_form (csrfToken : string)
    (provider : PageProvider) (fields : list (string * CredentialField)) :
  forallb (form_guarded csrfToken)
    (flat_map elements (map (credential_input provider) fields)) = true.
Proof.
  induction fields as [|entry fields IH]; simpl; [reflexivity|].
  exact IH.
Qed.

Lemma provider_block_spec (csrfToken : string) (email callbackUrl : option string)
    (l : list PageProvider) (p : PageProvider) (i : nat) :
  renderable p = true ->
  ((0 < i)%nat -> nth_error l (i - 1) <> None) ->
  exists block,
    provider_block csrfToken email callbackUrl l p i = Ok block
    /\ is_provider_block block = true
    /\ assoc "key" (props_of block) = Some (JStr (pp_id p))
    /\ map tag_of (children_of block)
         = (rule_above l p i ++ ["form"] ++ rule_below l p i)%list
    /\ forallb (form_guarded csrfToken) (elements block) = true.
Proof.
  intros Hr Hprev.
  unfold provider_block, rule_above, rule_below, previous_type,
    credentials_form, renderable, is_field_type in *.
  destruct p as [id name type signinUrl cbUrl credentials]; simpl in *.
  assert (Hfields : forall fields tail,
            forallb (form_guarded csrfToken)
              (flat_map elements
                 (map (credential_input
                         {| pp_id := id; pp_name := name;
                            pp_type := "credentials";
                            pp_signinUrl := signinUrl;
                            pp_callbackUrl := cbUrl;
                            pp_credentials := Some fields |}) fields
                  ++ tail))
            = forallb (form_guarded csrfToken) (flat_map elements tail)).
  { intros fields tail. rewrite flat_map_app, forallb_app.
    now rewrite credential_inputs_hold_no_form. }
  assert (Hshape :
            (type = "oauth" \/ type = "email"
             \/ (type = "credentials" /\ exists fields, credentials = Some fields))).
  { destruct (String.eqb_spec type "oauth"); [now left|].
    destruct (String.eqb_spec type "email"); [now right; left|].
    destruct (String.eqb_spec type "credentials"); [|discriminate].
    destruct credentials as [fields|]; [|discriminate].
    right; right; eauto. }
  clear Hr.
  destruct Hshape as [-> | [-> | [-> [fields ->]]]]; simpl.
  all: destruct (0 <? i)%nat eqn:Ei; simpl;
    [ apply Nat.ltb_lt in Ei; specialize (Hprev Ei);
      destruct (nth_error l (i - 1)) as [q|]; [|congruence];
      destruct (pp_type q =? "email"), (pp_type q =? "credentials") | ];
    destruct (i + 1 <? length l)%nat; simpl;
    eexists; (split; [reflexivity|]); simpl;
    rewrite ?forallb_app, ?Hfields;
    unfold form_guarded; simpl;
    rewrite ?String.eqb_refl; simpl;
    try (destruct (truthy callbackUrl); simpl);
    repeat split; reflexivity.
Qed.

Lemma provider_blocks_spec (csrfToken : string) (email callbackUrl : option string)
    (suf pre : list PageProvider) :
  (forall p, In p suf -> renderable p = true) ->
  exists blocks,
    map_indexed (provider_block csrfToken email callbackUrl (pre ++ suf))
      (length pre) suf = Ok blocks
    /\ filter is_provider_block blocks = blocks
    /\ map (fun b => assoc "key" (props_of b)) blocks
         = map (fun p => Some (JStr (pp_id p))) suf
    /\ flat_map (fun b => map tag_of (children_of b)) blocks
         = (match suf with
            | p :: _ => rule_above (pre ++ suf) p (length pre)
            | [] => []
            end ++ separated_forms (map pp_type suf))%list
    /\ forallb (form_guarded csrfToken) (flat_map elements blocks) = true.
Proof.
  revert pre. induction suf as [|p rest IH]; intros pre Hall.
  - exists []. simpl. repeat split; reflexivity.
  - destruct (provider_block_spec csrfToken email callbackUrl
                (pre ++ p :: rest) p (length pre))
      as (block & Hblock & Hclass & Hkey & Htags & Hforms).
    { apply Hall. now left. }
    { intros Hpos. apply nth_error_Some. rewrite length_app. simpl. lia. }
    destruct (IH (pre ++ [p])%list) as (blocks & Hrest & Hfilter & Hkeys & Houtline & Hguard).
    { intros q Hq. apply Hall. now right. }
    rewrite <- app_assoc in Hrest, Houtline. simpl in Hrest, Houtline.
    rewrite length_app in Hrest, Houtline. simpl in Hrest, Houtline.
    rewrite Nat.add_1_r in Hrest, Houtline.
    exists (block :: blocks). simpl.
    rewrite Hblock, Hrest, Hclass, Hfilter, Hkey, Hkeys, Htags, Houtline.
    rewrite forallb_app, Hforms, Hguard.
    repeat split; try reflexivity.
    rewrite <- !app_assoc. f_equal. simpl. f_equal.
    unfold rule_below, rule_above.
    destruct rest as [|q rest']; simpl.
    + rewrite length_app. simpl.
      replace (length pre + 1 <? length pre + 1)%nat with false
        by (symmetry; apply Nat.ltb_ge; lia).
      now rewrite andb_false_r.
    + rewrite length_app. simpl.
      replace (length pre + 1 <? length pre + S (S (length rest')))%nat
        with true by (symmetry; apply Nat.ltb_lt; lia).
      rewrite Nat.sub_0_r.
      rewrite nth_error_app2 by lia. rewrite Nat.sub_diag. simpl.
      rewrite !andb_true_r.
      destruct (is_field_type (pp_type p)), (is_field_type (pp_type q));
        reflexivity.
Qed.

(** What the page returns, for any input. *)
Lemma signin_view_shape (req : Request) (csrfToken : string)
    (providers : list PageProvider) (callbackUrl : option string) :
  exists view,
    signin req csrfToken providers callbackUrl = Ok view
    /\ block_keys view
         = map (fun p => Some (JStr (pp_id p))) (filter renderable providers)
    /\ outline view
         = separated_forms (map pp_type (filter renderable providers))
    /\ forallb (form_guarded csrfToken) (elements view) = true
    /\ existsb is_error_box (children_of view)
         = truthy (assoc "error" (req_query req)).
Proof.
  destruct (provider_blocks_spec csrfToken (assoc "email" (req_query req))
              callbackUrl (filter renderable providers) [])
    as (blocks & Hblocks & Hfilter & Hkeys & Houtline & Hguard).
  { intros p Hp. now apply filter_In in Hp. }
  simpl in Hblocks, Houtline.
  assert (Htop : match filter renderable providers with
                 | p :: _ => rule_above (filter renderable providers) p 0
                 | [] => []
                 end = []).
  { destruct (filter renderable providers); [reflexivity|].
    unfold rule_above. simpl. now rewrite andb_false_r. }
  rewrite Htop in Houtline. simpl in Houtline.
  assert (Hnoerr : existsb is_error_box blocks = false).
  { rewrite <- Hfilter. clear.
    induction blocks as [|b bs IH]; simpl; [reflexivity|].
    destruct (is_provider_block b) eqn:E; [|exact IH].
    simpl. rewrite IH, orb_false_r.
    unfold is_provider_block, is_error_box in *.
    destruct (assoc "className" (props_of b)) as [[| | | |c|]|];
      try discriminate.
    apply String.eqb_eq in E. now subst. }
  unfold signin. rewrite Hblocks.
  eexists. split; [reflexivity|].
  unfold block_keys, outline. simpl.
  unfold errorMessage, truthy.
  destruct (assoc "error" (req_query req)) as [code|]; simpl.
  2: { rewrite Hfilter, Hkeys, Houtline, Hguard, Hnoerr. repeat split. }
  destruct (String.eqb code ""); simpl.
  { rewrite Hfilter, Hkeys, Houtline, Hguard, Hnoerr. repeat split. }
  repeat match goal with
         | |- context [if ?b then _ else _] => destruct b
         end; simpl;
    rewrite Hfilter, Hkeys, Houtline, Hguard; repeat split.
Qed.

Lemma separated_forms_head (types : list string) :
  separated_forms types = [] \/ hd_error (separated_forms types) = Some "form".
Proof. destruct types; simpl; auto. Qed.

Lemma separated_forms_rule_then_form (types : list string) (k : nat) :
  nth_error (separated_forms types) k = Some "hr" ->
  nth_error (separated_forms types) (S k) = Some "form".
Proof.
  revert k. induction types as [|t1 rest IH]; intros k H.
  - destruct k; discriminate.
  - simpl in *. destruct k as [|k]; [discriminate|]. simpl in *.
    destruct rest as [|t2 rest']; [destruct k; discriminate|].
    destruct (is_field_type t1 || is_field_type t2); simpl in *.
    + destruct k as [|k]; [reflexivity|]. simpl in *. now apply IH.
    + now apply IH.
Qed.

(** X20: the page is rendered for every list of providers (the lookups
    [providersToRender[i - 1]] and [Object.keys(provider.credentials)]
    never throw), and it holds one block per provider that passes the
    filter, in the order given, keyed by the provider's id: [oauth] and
    [email] providers always, [credentials] providers only with their
    fields defined, providers of any other type never. *)
Theorem signin_renders_renderable_providers (req : Request)
    (csrfToken : string) (providers : list PageProvider)
    (callbackUrl : option string) :
  exists view,
    signin req csrfToken providers callbackUrl = Ok view
    /\ block_keys view
         = map (fun p => Some (JStr (pp_id p))) (filter renderable providers).
Proof.
  destruct (signin_view_shape req csrfToken providers callbackUrl)
    as (view & Hview & Hkeys & _).
  exists view. split; assumption.
Qed.

(** X21: top to bottom the blocks show one form per rendered provider and
    a single rule between two neighbours unless both are [oauth]
    providers; so the sequence starts with a form, and every rule is
    directly followed by a form: no rule comes first, last, or next to
    another rule. *)
Theorem signin_separators (req : Request) (csrfToken : string)
    (providers : list PageProvider) (callbackUrl : option string) :
  exists view,
    signin req csrfToken providers callbackUrl = Ok view
    /\ outline view
         = separated_forms (map pp_type (filter renderable providers))
    /\ (outline view = [] \/ hd_error (outline view) = Some "form")
    /\ forall k,
         nth_error (outline view) k = Some "hr" ->
         nth_error (outline view) (S k) = Some "form".
Proof.
  destruct (signin_view_shape req csrfToken providers callbackUrl)
    as (view & Hview & _ & Houtline & _).
  exists view. rewrite Houtline.
  split; [assumption|]. split; [reflexivity|].
  split; [apply separated_forms_head|].
  apply separated_forms_rule_then_form.
Qed.

(** X22: every form of the page, whatever the provider, is submitted by
    POST and has the hidden [csrfToken] input, with the token the page was
    given, as its first field. *)
Theorem signin_forms_carry_csrf_token (req : Request) (csrfToken : string)
    (providers : list PageProvider) (callbackUrl : option string) :
  exists view,
    signin req csrfToken providers callbackUrl = Ok view
    /\ forallb (form_guarded csrfToken) (elements view) = true.
Proof.
  destruct (signin_view_shape req csrfToken providers callbackUrl)
    as (view & Hview & _ & _ & Hforms & _).
  exists view. split; assumption.
Qed.

(** X23: the page shows the error box exactly when the [error] query
    parameter is a non-empty string. *)
Theorem signin_error_box (req : Request) (csrfToken : string)
    (providers : list PageProvider) (callbackUrl : option string) :
  exists view,
    signin req csrfToken providers callbackUrl = Ok view
    /\ existsb is_error_box (children_of view)
         = truthy (assoc "error" (req_query req)).
Proof.
  destruct (signin_view_shape req csrfToken providers callbackUrl)
    as (view & Hview & _ & _ & _ & Herror).
  exists view. split; assumption.
Qed.

(** ** The further properties on the deployment with knobs *)

Lemma oauth_exchange_error_witness :
  Scenario.result "github" Demo.get_request
    (Scenario.with_exchange (Ok Scenario.exchange_failed) Scenario.smooth)
  = Redirect (JStr "https://example.com/api/auth/error?error=oAuthCallback")
  /\ existsb is_signIn_call
       (Scenario.calls "github" Demo.get_request
          (Scenario.with_exchange (Ok Scenario.exchange_failed)
             Scenario.smooth))
     = false.
Proof.
  destruct (oauth_exchange_error Demo.Store
              (Scenario.imports
                 (Scenario.with_exchange (Ok Scenario.exchange_failed)
                    Scenario.smooth))
              Demo.get_request
              (Scenario.options "github"
                 (Scenario.with_exchange (Ok Scenario.exchange_failed)
                    Scenario.smooth))
              Demo.store Scenario.exchange_failed _ eq_refl eq_refl eq_refl)
    as (Hout & Hpolicy & _).
  split; [exact Hout | exact Hpolicy].
Defined.

Lemma oauth_no_profile_witness :
  Scenario.result "github" Demo.get_request
    (Scenario.with_exchange (Ok Scenario.exchange_cancelled) Scenario.smooth)
  = Redirect (JStr "https://example.com/api/auth/signin").
Proof.
  exact (proj1 (oauth_no_profile Demo.Store
                  (Scenario.imports
                     (Scenario.with_exchange (Ok Scenario.exchange_cancelled)
                        Scenario.smooth))
                  Demo.get_request
                  (Scenario.options "github"
                     (Scenario.with_exchange (Ok Scenario.exchange_cancelled)
                        Scenario.smooth))
                  Demo.store Scenario.exchange_cancelled
                  eq_refl eq_refl eq_refl)).
Defined.

Lemma oauth_exchange_throws_witness :
  Scenario.result "github" Demo.get_request
    (Scenario.with_exchange (Err (ThrownValue JNull)) Scenario.smooth)
  = Redirect (JStr "https://example.com/api/auth/error?error=Callback").
Proof.
  exact (proj1 (oauth_exchange_throws Demo.Store
                  (Scenario.imports
                     (Scenario.with_exchange (Err (ThrownValue JNull))
                        Scenario.smooth))
                  Demo.get_request
                  (Scenario.options "github"
                     (Scenario.with_exchange (Err (ThrownValue JNull))
                        Scenario.smooth))
                  Demo.store (ThrownValue JNull) eq_refl)).
Defined.

Lemma email_requires_adapter_witness :
  Scenario.result "email" Demo.get_request
    (Scenario.without_adapter Scenario.smooth)
  = Redirect (JStr "https://example.com/api/auth/error?error=Configuration").
Proof.
  exact (proj1 (email_requires_adapter Demo.Store
                  (Scenario.imports (Scenario.without_adapter Scenario.smooth))
                  Demo.get_request
                  (Scenario.options "email"
                     (Scenario.without_adapter Scenario.smooth))
                  Demo.store Demo.email_provider eq_refl eq_refl eq_refl)).
Defined.

Lemma credentials_require_authorize_witness :
  Scenario.result "login" Demo.post_request
    (Scenario.with_authorized None Scenario.smooth)
  = Redirect (JStr "https://example.com/api/auth/error?error=Configuration").
Proof.
  exact (proj1 (credentials_require_authorize Demo.Store
                  (Scenario.imports
                     (Scenario.with_authorized None Scenario.smooth))
                  Demo.post_request
                  (Scenario.options "login"
                     (Scenario.with_authorized None Scenario.smooth))
                  Demo.store _ eq_refl eq_refl eq_refl eq_refl eq_refl)).
Defined.

Lemma credentials_rejected_witness :
  Scenario.result "login" Demo.post_request
    (Scenario.with_authorized (Some (Ok None)) Scenario.smooth)
  = Redirect
      (JStr
         "https://example.com/api/auth/error?error=CredentialsSignin&provider=login%20form").
Proof.
  exact (proj1 (credentials_rejected Demo.Store
                  (Scenario.imports
                     (Scenario.with_authorized (Some (Ok None))
                        Scenario.smooth))
                  Demo.post_request
                  (Scenario.options "login"
                     (Scenario.with_authorized (Some (Ok None))
                        Scenario.smooth))
                  Demo.store _ eq_refl eq_refl) eq_refl).
Defined.

Lemma authorize_fault_redirect_witness :
  Scenario.result "login" Demo.post_request
    (Scenario.with_authorized
       (Some (Err (ThrownError "Error" "locked out"))) Scenario.smooth)
  = Redirect
      (JStr "https://example.com/api/auth/error?error=Error%3A%20locked%20out")
  /\ Scenario.result "login" Demo.post_request
       (Scenario.with_authorized
          (Some (Err (ThrownValue (JStr "/locked")))) Scenario.smooth)
     = Redirect (JStr "/locked").
Proof.
  split.
  - exact (proj1 (authorize_fault_redirect Demo.Store
                    (Scenario.imports
                       (Scenario.with_authorized
                          (Some (Err (ThrownError "Error" "locked out")))
                          Scenario.smooth))
                    Demo.post_request
                    (Scenario.options "login"
                       (Scenario.with_authorized
                          (Some (Err (ThrownError "Error" "locked out")))
                          Scenario.smooth))
                    Demo.store (ThrownError "Error" "locked out") eq_refl)).
  - exact (proj1 (authorize_fault_redirect Demo.Store
                    (Scenario.imports
                       (Scenario.with_authorized
                          (Some (Err (ThrownValue (JStr "/locked"))))
                          Scenario.smooth))
                    Demo.post_request
                    (Scenario.options "login"
                       (Scenario.with_authorized
                          (Some (Err (ThrownValue (JStr "/locked"))))
                          Scenario.smooth))
                    Demo.store (ThrownValue (JStr "/locked")) eq_refl)).
Defined.

Lemma new_user_landing_page_witness :
  Scenario.result "email" Demo.get_request
    (Scenario.with_newUser_page (Some "/welcome")
       (Scenario.with_materialized Scenario.new_user Scenario.smooth))
  = Redirect (JStr "/welcome").
Proof.
  refine (new_user_landing_page Demo.Store
            (Scenario.imports
               (Scenario.with_newUser_page (Some "/welcome")
                  (Scenario.with_materialized Scenario.new_user
                     Scenario.smooth)))
            Demo.get_request
            (Scenario.options "email"
               (Scenario.with_newUser_page (Some "/welcome")
                  (Scenario.with_materialized Scenario.new_user
                     Scenario.smooth)))
            Demo.store _ "/welcome" eq_refl eq_refl eq_refl _).
  discriminate.
Defined.

Lemma jwt_cookie_carries_encoded_token_witness :
  jwt_encode_result (Scenario.calls "github" Demo.get_request Scenario.smooth)
  = Some (Ok "encoded.jwt")
  /\ clock_reading (Scenario.calls "github" Demo.get_request Scenario.smooth)
     = Some 1600000000000%Z
  /\ option_map (fun c => cookie_expires (snd c))
       (cookie_written
          (Scenario.calls "github" Demo.get_request Scenario.smooth))
     = Some (ExpiresAt (1600000000000 + 2592000 * 1000)).
Proof.
  destruct (jwt_cookie_carries_encoded_token Demo.Store
              (Scenario.imports Scenario.smooth) Demo.get_request
              (Scenario.options "github" Scenario.smooth) Demo.store
              "encoded.jwt"
              (spread_options (ExpiresAt 1602592000000)
                 [("httpOnly", JBool true); ("sameSite", JStr "lax");
                  ("path", JStr "/")])
              eq_refl eq_refl)
    as (Hencoded & now & Hnow & _ & _ & _).
  split; [exact Hencoded|]. split; reflexivity.
Defined.

Lemma persisted_session_cookie_witness :
  existsb is_jwt_call
    (Scenario.calls "github" Demo.get_request
       (Scenario.persisted Scenario.smooth)) = false
  /\ existsb is_jwt_encode
       (Scenario.calls "github" Demo.get_request
          (Scenario.persisted Scenario.smooth)) = false
  /\ cookie_written
       (Scenario.calls "github" Demo.get_request
          (Scenario.persisted Scenario.smooth))
     = Some ("opaque",
             {| cookie_expires :=
                  ExpiresStored (Some "2030-01-01T00:00:00.000Z");
                cookie_attributes :=
                  [("httpOnly", JBool true); ("sameSite", JStr "lax");
                   ("path", JStr "/")] |}).
Proof.
  destruct (persisted_session_cookie Demo.Store
              (Scenario.imports (Scenario.persisted Scenario.smooth))
              Demo.get_request
              (Scenario.options "github" (Scenario.persisted Scenario.smooth))
              Demo.store eq_refl) as (H1 & H2 & _).
  split; [exact H1 | split; [exact H2 | reflexivity]].
Defined.

Lemma missing_session_record_witness :
  Scenario.result "github" Demo.get_request
    (Scenario.persisted
       (Scenario.with_materialized Scenario.no_session Scenario.smooth))
  = Redirect (JStr "https://example.com/api/auth/error?error=Callback").
Proof.
  exact (proj1 (missing_session_record Demo.Store
                  (Scenario.imports
                     (Scenario.persisted
                        (Scenario.with_materialized Scenario.no_session
                           Scenario.smooth)))
                  Demo.get_request
                  (Scenario.options "github"
                     (Scenario.persisted
                        (Scenario.with_materialized Scenario.no_session
                           Scenario.smooth)))
                  Demo.store _ eq_refl eq_refl eq_refl)).
Defined.

Lemma oauth_subjects_witness :
  signIn_subject
    (Scenario.calls "github" Demo.get_request
       (Scenario.with_stored_user (Ok (Some Demo.alice)) Scenario.smooth))
  = Some Demo.alice
  /\ materialization_input
       (Scenario.calls "github" Demo.get_request
          (Scenario.with_stored_user (Ok (Some Demo.alice)) Scenario.smooth))
     = Some (Scenario.github_profile, Scenario.github_account).
Proof.
  destruct (oauth_subjects Demo.Store
              (Scenario.imports
                 (Scenario.with_stored_user (Ok (Some Demo.alice))
                    Scenario.smooth))
              Demo.get_request
              (Scenario.options "github"
                 (Scenario.with_stored_user (Ok (Some Demo.alice))
                    Scenario.smooth))
              Demo.store Scenario.exchanged Demo.alice eq_refl eq_refl)
    as (profile & Hprofile & _ & Hinput).
  split; [reflexivity|].
  injection Hprofile as <-.
  destruct (Hinput Scenario.github_profile Scenario.github_account eq_refl)
    as [_ _].
  reflexivity.
Defined.

Lemma faults_end_in_redirect_witness :
  exists target,
    Scenario.result "github" Demo.get_request
      (Scenario.with_encoded (Err (ThrownError "Error" "no key"))
         Scenario.smooth)
    = Redirect target.
Proof.
  exact (faults_end_in_redirect Demo.Store
           (Scenario.imports
              (Scenario.with_encoded (Err (ThrownError "Error" "no key"))
                 Scenario.smooth))
           Demo.get_request
           (Scenario.options "github"
              (Scenario.with_encoded (Err (ThrownError "Error" "no key"))
                 Scenario.smooth))
           Demo.store _ eq_refl (or_introl eq_refl) eq_refl).
Defined.

Lemma credentials_session_fault_escapes_witness :
  Scenario.result "login" Demo.post_request
    (Scenario.with_encoded (Err (ThrownError "Error" "no key"))
       Scenario.smooth)
  = Unhandled (ThrownError "Error" "no key").
Proof.
  exact (proj1 (credentials_session_fault_escapes Demo.Store
                  (Scenario.imports
                     (Scenario.with_encoded
                        (Err (ThrownError "Error" "no key")) Scenario.smooth))
                  Demo.post_request
                  (Scenario.options "login"
                     (Scenario.with_encoded
                        (Err (ThrownError "Error" "no key")) Scenario.smooth))
                  Demo.store _ (ThrownError "Error" "no key")
                  eq_refl eq_refl eq_refl)).
Defined.

Lemma fault_code_is_url_safe_witness :
  (exists code,
     Scenario.result "email" Demo.get_request
       (Scenario.with_policy (Err (ThrownError "Error" "x&admin=1#top"))
          Scenario.smooth)
     = Redirect
         (error_page
            (Scenario.options "email"
               (Scenario.with_policy
                  (Err (ThrownError "Error" "x&admin=1#top"))
                  Scenario.smooth))
            code)
     /\ forallb uri_safe (list_ascii_of_string code) = true)
  \/ Scenario.result "email" Demo.get_request
       (Scenario.with_policy (Err (ThrownError "Error" "x&admin=1#top"))
          Scenario.smooth)
     = Unhandled uri_error.
Proof.
  exact (fault_code_is_url_safe Demo.Store
           (Scenario.imports
              (Scenario.with_policy
                 (Err (ThrownError "Error" "x&admin=1#top")) Scenario.smooth))
           Demo.get_request
           (Scenario.options "email"
              (Scenario.with_policy
                 (Err (ThrownError "Error" "x&admin=1#top")) Scenario.smooth))
           Demo.store "Error" "x&admin=1#top" (or_introl eq_refl)).
Defined.

Lemma default_listener_never_fails_witness :
  existsb is_event_error_log
    (Scenario.calls "login" Demo.post_request Scenario.smooth) = false
  /\ existsb is_signin_event
       (Scenario.calls "login" Demo.post_request Scenario.smooth) = true.
Proof.
  split; [|reflexivity].
  exact (proj1 (default_listener_never_fails Demo.Store
                  (Scenario.imports Scenario.smooth) Demo.post_request
                  (Scenario.options "login" Scenario.smooth) Demo.store
                  eq_refl)).
Defined.

